(** * Voice chat backend: transcription fallback chain, upload staging, chat

    A shallow embedding of the Python modules

      - [api/utils/audio.py]          (module [audio])
      - [api/services/transcribe.py]  (module [transcribe])
      - [api/services/chat.py]        (module [chat])
      - [api/views.py]                (module [views])

    Every call that leaves the program (the OpenAI SDK, the
    SpeechRecognition library, the file system) is answered by an
    environment [Env] and recorded, in order, in a trace of events.  A
    computation is a pair of the trace it produced and its outcome: a
    returned value or a raised exception. *)

From Stdlib Require Import Ascii String List Bool Arith Lia.
From Stdlib Require Import ZArith DecimalString.
From stdpp Require Import base option list strings gmap.

Import ListNotations.
Local Open Scope string_scope.
Local Open Scope list_scope.

(** ** Python strings

    A [string] is read as a sequence of code points below 256, one per
    character. *)

Module pystr.

(** [str.isspace] on one character: the code points 9-13, 28-32, 133 and
    160 are the whitespace characters below 256. *)
Definition isspace (c : ascii) : bool :=
  let n := nat_of_ascii c in
  (((9 <=? n) && (n <=? 13)) || ((28 <=? n) && (n <=? 32))
   || (n =? 133) || (n =? 160))%nat.

Fixpoint lstrip (s : string) : string :=
  match s with
  | EmptyString => EmptyString
  | String c rest => if isspace c then lstrip rest else s
  end.

Fixpoint rstrip (s : string) : string :=
  match s with
  | EmptyString => EmptyString
  | String c rest =>
      match rstrip rest with
      | EmptyString => if isspace c then EmptyString else String c EmptyString
      | kept => String c kept
      end
  end.

(** [s.strip()] *)
Definition strip (s : string) : string := rstrip (lstrip s).

(** Truth value of a string: [bool(s)]. *)
Definition truthy (s : string) : bool :=
  match s with
  | EmptyString => false
  | String _ _ => true
  end.

(** [a or b] on strings. *)
Definition or_else (a b : string) : string := if truthy a then a else b.

(** Every character is whitespace (true of the empty string). *)
Fixpoint blank (s : string) : bool :=
  match s with
  | EmptyString => true
  | String c rest => isspace c && blank rest
  end.

End pystr.

(** ** Python values, as far as the remote response needs them *)

(** [shown] is the text [str()] gives for the value; Python's [repr] of
    containers is not computed. *)
#[local] Set Warnings "-register-all".
Inductive pyval : Type :=
| PyNone
| PyStr (s : string)
| PyDict (items : list (string * pyval)) (shown : string)
| PyOther (tyname : string) (truth : bool) (shown : string).

Definition py_truthy (v : pyval) : bool :=
  match v with
  | PyNone => false
  | PyStr s => pystr.truthy s
  | PyDict [] _ => false
  | PyDict (_ :: _) _ => true
  | PyOther _ truth _ => truth
  end.

Definition py_str (v : pyval) : string :=
  match v with
  | PyNone => "None"
  | PyStr s => s
  | PyDict _ shown => shown
  | PyOther _ _ shown => shown
  end.

Definition isinstance_dict (v : pyval) : bool :=
  match v with
  | PyDict _ _ => true
  | _ => false
  end.

(** [d.get(key, dflt)] *)
Fixpoint dict_get (items : list (string * pyval)) (key : string) (dflt : pyval) : pyval :=
  match items with
  | [] => dflt
  | (k, v) :: rest => if String.eqb k key then v else dict_get rest key dflt
  end.

(** [getattr(obj, name, dflt)], the attribute being [None] when the object
    does not have it. *)
Definition getattr {A : Type} (attr : option A) (dflt : A) : A :=
  match attr with
  | Some v => v
  | None => dflt
  end.

(** ** Exceptions and outcomes *)

(** An instance of a subclass of [Exception]; [exn_detail] is [str(ex)]. *)
Record exn : Type := Exn { exn_class : string; exn_detail : string }.

Inductive result (A : Type) : Type :=
| Ok (a : A)
| Raise (e : exn).
Arguments Ok {A} a.
Arguments Raise {A} e.

(** [type(v).__name__] *)
Definition py_type_name (v : pyval) : string :=
  match v with
  | PyNone => "NoneType"
  | PyStr _ => "str"
  | PyDict _ _ => "dict"
  | PyOther tyname _ _ => tyname
  end.

(** [v.strip()]: a string is trimmed; a value that is not a string ([None],
    a number, a dict) has no [strip], and the call raises AttributeError. *)
Definition py_strip (v : pyval) : result string :=
  match v with
  | PyStr s => Ok (pystr.strip s)
  | _ =>
      Raise {| exn_class := "AttributeError";
               exn_detail := "'" +:+ py_type_name v
                             +:+ "' object has no attribute 'strip'" |}
  end.

(** ** Events *)

(** The functions of the program whose invocation is recorded. *)
Inductive func : Type :=
| F_save_uploaded_file_temporarily
| F_safe_unlink
| F_transcribe_openai_client
| F_transcribe_with_openai
| F_transcribe_with_speech_recognition
| F_transcribe_audio
| F_chat_openai_client
| F_send_chat.

Definition AudioData : Type := string.

Inductive event : Type :=
| Enter (f : func)
| EOpenAI (api_key : string)
| EOpen (path : string)
| EClose (path : string)
| ETranscriptionsCreate (model path : string)
| EChatCompletionsCreate (model : string) (messages : list (string * string))
| ERecognizer
| EAudioFileRecord (path : string)
| ERecognizeSphinx (audio : AudioData)
| ERecognizeGoogle (audio : AudioData)
| EMkstemp (prefix suffix : string)
| EWrite (path chunk : string)
| EFdClose (path : string)
| EPathExists (path : string)
| ERemove (path : string).

Definition trace : Type := list event.

(** ** Computations *)

Definition M (A : Type) : Type := (trace * result A)%type.

Definition ret {A : Type} (a : A) : M A := ([], Ok a).

Definition raise {A : Type} (e : exn) : M A := ([], Raise e).

Definition bind {A B : Type} (m : M A) (k : A -> M B) : M B :=
  match m with
  | (t, Ok a) => let '(t', r) := k a in (t ++ t', r)
  | (t, Raise e) => (t, Raise e)
  end.

Declare Scope comp_scope.
Delimit Scope comp_scope with comp.
Bind Scope comp_scope with M.
Notation "x <- m ;; k" := (bind m (fun x => k))
  (at level 20, m at level 99, k at level 200, only parsing) : comp_scope.
Notation "' pat <- m ;; k" := (bind m (fun x => match x with pat => k end))
  (at level 20, pat pattern, m at level 99, k at level 200, only parsing) : comp_scope.
Notation "m ;; k" := (bind m (fun _ => k))
  (at level 100, k at level 200, only parsing, right associativity) : comp_scope.
Local Open Scope comp_scope.

(** Entering one of the program's functions. *)
Definition enter (f : func) : M unit := ([Enter f], Ok tt).

(** A call that leaves the program: the event, and the environment's answer. *)
Definition extern {A : Type} (e : event) (answer : result A) : M A := ([e], answer).

(** A value that is computed without leaving the program. *)
Definition lift {A : Type} (r : result A) : M A := ([], r).

(** [try: m  except Exception as ex: h ex] *)
Definition try_except {A : Type} (m : M A) (h : exn -> M A) : M A :=
  match m with
  | (t, Ok a) => (t, Ok a)
  | (t, Raise e) => let '(t', r) := h e in (t ++ t', r)
  end.

(** [try: m  finally: f]; an exception of [f] replaces the outcome of [m]. *)
Definition try_finally {A : Type} (m : M A) (f : M unit) : M A :=
  let '(t, r) := m in
  match f with
  | (t', Ok _) => (t ++ t', r)
  | (t', Raise e) => (t ++ t', Raise e)
  end.

Definition events_of {A : Type} (m : M A) : trace := fst m.
Definition outcome {A : Type} (m : M A) : result A := snd m.

(** ** Classes of events *)

(** Upload staging: [save_uploaded_file_temporarily]. *)
Definition staging_event (e : event) : bool :=
  match e with
  | Enter F_save_uploaded_file_temporarily
  | EMkstemp _ _ | EWrite _ _ | EFdClose _ => true
  | _ => false
  end.

(** Cleanup: [safe_unlink]. *)
Definition cleanup_event (e : event) : bool :=
  match e with
  | Enter F_safe_unlink | EPathExists _ | ERemove _ => true
  | _ => false
  end.

(** The remote transcription stage: [_transcribe_with_openai], its client
    and its request. *)
Definition remote_event (e : event) : bool :=
  match e with
  | Enter F_transcribe_with_openai | Enter F_transcribe_openai_client
  | EOpenAI _ | EOpen _ | EClose _ | ETranscriptionsCreate _ _ => true
  | _ => false
  end.

(** The fallback stage: [_transcribe_with_speech_recognition] and the
    SpeechRecognition library. *)
Definition fallback_event (e : event) : bool :=
  match e with
  | Enter F_transcribe_with_speech_recognition
  | ERecognizer | EAudioFileRecord _
  | ERecognizeSphinx _ | ERecognizeGoogle _ => true
  | _ => false
  end.

(** The resolver as a whole. *)
Definition resolver_event (e : event) : bool :=
  match e with
  | Enter F_transcribe_audio => true
  | _ => remote_event e || fallback_event e
  end.

(** The chat dependency: [send_chat], its client and its request. *)
Definition chat_event (e : event) : bool :=
  match e with
  | Enter F_send_chat | Enter F_chat_openai_client
  | EChatCompletionsCreate _ _ => true
  | _ => false
  end.

(** A request that goes over the network. *)
Definition network_event (e : event) : bool :=
  match e with
  | ETranscriptionsCreate _ _ | EChatCompletionsCreate _ _
  | ERecognizeGoogle _ => true
  | _ => false
  end.

(** Every event of [m] is in the class [P]. *)
Definition emits {A : Type} (P : event -> bool) (m : M A) : Prop :=
  forallb P (events_of m) = true.

(** No event of [m] is in the class [P]. *)
Definition never {A : Type} (P : event -> bool) (m : M A) : Prop :=
  emits (fun e => negb (P e)) m.

(** ** The environment *)

(** [django.conf.settings]; an attribute that is not set is [None].
    [OPENAI_API_KEY], when set, holds any value (a string, or [None] when
    the environment variable it is read from is missing); the model names
    hold strings and [DEBUG_TRANSCRIPTS] a boolean. *)
Record Settings : Type := {
  OPENAI_API_KEY : option pyval;
  OPENAI_TRANSCRIPTION_MODEL : option string;
  OPENAI_MODEL : option string;
  DEBUG_TRANSCRIPTS : option bool;
}.

(** The credential is unset, or empty once trimmed. *)
Definition credential_unconfigured (s : Settings) : Prop :=
  match OPENAI_API_KEY s with
  | None => True
  | Some (PyStr key) => pystr.strip key = ""
  | Some _ => False
  end.

(** The credential is unset, empty, or made of whitespace only. *)
Definition credential_blank (s : Settings) : bool :=
  match OPENAI_API_KEY s with
  | None => true
  | Some (PyStr key) => pystr.blank key
  | Some _ => false
  end.

(** [getattr(settings, "OPENAI_API_KEY", "").strip()] *)
Definition trimmed_key (s : Settings) : result string :=
  py_strip (getattr (OPENAI_API_KEY s) (PyStr "")).

(** An [openai.OpenAI] client, as the SDK built it. *)
Record Client : Type := { client_id : string }.

(** The object [client.audio.transcriptions.create] returns.  An absent
    attribute is [None]; [resp_to_dict] is the outcome of calling
    [to_dict()], a dict when it returns; [resp_str] is [str(resp)]. *)
Record response : Type := {
  resp_text : option pyval;
  resp_data : option pyval;
  resp_to_dict : option (result (list (string * pyval)));
  resp_str : string;
}.

(** The object [client.chat.completions.create] returns: [choices] when it
    has the attribute, each choice with its [message.content] (absent or
    [None] being [None]). *)
Record chat_response : Type := {
  choices : option (list (option string));
}.

Record Env : Type := {
  settings : Settings;
  (** [from openai import OpenAI] succeeded at import time *)
  OpenAI_imported : bool;
  (** [import speech_recognition as sr] succeeded at import time *)
  sr_imported : bool;
  (** [OpenAI(api_key=...)] *)
  OpenAI_init : string -> result Client;
  (** [open(path, "rb")] *)
  open_rb : string -> result unit;
  transcriptions_create : Client -> string -> string -> result response;
  chat_completions_create :
    Client -> string -> list (string * string) -> result chat_response;
  (** [sr.Recognizer()] *)
  sr_Recognizer : result unit;
  (** [with sr.AudioFile(path) as source: recognizer.record(source)] *)
  sr_record : string -> result AudioData;
  recognize_sphinx : AudioData -> result string;
  recognize_google : AudioData -> result string;
  (** [tempfile.mkstemp(prefix=, suffix=)], the path of the new file *)
  mkstemp : string -> string -> result string;
  (** [tmp.write(chunk)] on the file at a path *)
  fd_write : string -> string -> result unit;
  (** leaving [with os.fdopen(fd, "wb") as tmp]: the buffer is flushed and
      the file at a path closed *)
  fd_close : string -> result unit;
  os_path_exists : string -> result bool;
  os_remove : string -> result unit;
}.

(** ** [api/utils/audio.py] *)

Module audio.

(** An uploaded file: [content_type] and the chunks [chunks()] yields. *)
Record UploadedFile : Type := {
  content_type : option string;
  chunks : list string;
}.

Definition mapping : gmap string string :=
  {[ "audio/wav" := ".wav";
     "audio/x-wav" := ".wav";
     "audio/mpeg" := ".mp3";
     "audio/mp3" := ".mp3" ]}.

Definition _guess_extension_from_mime (mime : option string) : string :=
  let key := match mime with
             | Some m => pystr.or_else m ""
             | None => ""
             end in
  match mapping !! key with
  | Some ext => ext
  | None => ".bin"
  end.

Section with_env.
Variable env : Env.

Fixpoint write_chunks (path : string) (cs : list string) : M unit :=
  match cs with
  | [] => ret tt
  | chunk :: rest =>
      extern (EWrite path chunk) (fd_write env path chunk) ;;
      write_chunks path rest
  end.

Definition save_uploaded_file_temporarily (file_obj : UploadedFile) : M (string * string) :=
  enter F_save_uploaded_file_temporarily ;;
  let ext := _guess_extension_from_mime (content_type file_obj) in
  path <- extern (EMkstemp "audio_" ext) (mkstemp env "audio_" ext) ;;
  try_finally (write_chunks path (chunks file_obj))
    (extern (EFdClose path) (fd_close env path)) ;;
  ret (path, ext).

Definition safe_unlink (path : option string) : M unit :=
  enter F_safe_unlink ;;
  match path with
  | None => ret tt
  | Some p =>
      if negb (pystr.truthy p) then ret tt
      else
        try_except
          (there <- extern (EPathExists p) (os_path_exists env p) ;;
           if there then extern (ERemove p) (os_remove env p) else ret tt)
          (fun _ => ret tt)
  end.

End with_env.
End audio.

(** ** [api/services/transcribe.py] *)

Module transcribe.
Section with_env.
Variable env : Env.

Definition _openai_client : M (option Client) :=
  enter F_transcribe_openai_client ;;
  api_key <- lift (py_strip (getattr (OPENAI_API_KEY (settings env)) (PyStr ""))) ;;
  if negb (pystr.truthy api_key) || negb (OpenAI_imported env) then ret None
  else
    client <- extern (EOpenAI api_key) (OpenAI_init env api_key) ;;
    ret (Some client).

(** Lines 45-53: the text of a response, [str(text).strip()]. *)
Definition extract_text (resp : response) : M string :=
  let text :=
    let attr := getattr (resp_text resp) (PyStr "") in
    if py_truthy attr then attr else getattr (resp_data resp) PyNone in
  let text :=
    match text with
    | PyDict items _ => dict_get items "text" (PyStr "")
    | _ => text
    end in
  text <- match resp_to_dict resp with
          | Some called =>
              if negb (py_truthy text)
              then d <- lift called ;; ret (dict_get d "text" (PyStr ""))
              else ret text
          | None => ret text
          end ;;
  let text := if negb (py_truthy text) then PyStr (resp_str resp) else text in
  ret (pystr.strip (py_str text)).

Definition _transcribe_with_openai (file_path : string) : M (bool * string) :=
  enter F_transcribe_with_openai ;;
  client <- _openai_client ;;
  match client with
  | None => ret (false, "OpenAI is not configured.")
  | Some client =>
      let model := getattr (OPENAI_TRANSCRIPTION_MODEL (settings env)) "whisper-1" in
      try_except
        (extern (EOpen file_path) (open_rb env file_path) ;;
         resp <- try_finally
                   (extern (ETranscriptionsCreate model file_path)
                      (transcriptions_create env client model file_path))
                   (extern (EClose file_path) (Ok tt)) ;;
         text <- extract_text resp ;;
         ret (true, text))
        (fun ex => ret (false, "OpenAI transcription failed: " +:+ exn_detail ex))
  end.

Definition _transcribe_with_speech_recognition (file_path : string) : M (bool * string) :=
  enter F_transcribe_with_speech_recognition ;;
  if negb (sr_imported env) then ret (false, "SpeechRecognition is not available.")
  else
    extern ERecognizer (sr_Recognizer env) ;;
    read <- try_except
              (audio <- extern (EAudioFileRecord file_path) (sr_record env file_path) ;;
               ret (inr audio))
              (fun ex => ret (inl ("Could not read audio file: " +:+ exn_detail ex))) ;;
    match read with
    | inl message => ret (false, message)
    | inr audio =>
        offline <- try_except
                     (text <- extern (ERecognizeSphinx audio) (recognize_sphinx env audio) ;;
                      ret (Some text))
                     (fun _ => ret None) ;;
        match offline with
        | Some text => ret (true, text)
        | None =>
            try_except
              (text <- extern (ERecognizeGoogle audio) (recognize_google env audio) ;;
               ret (true, text))
              (fun ex => ret (false, "SpeechRecognition failed: " +:+ exn_detail ex))
        end
    end.

(** Lines 105-111 of [transcribe_audio]: the fallback and the consolidated
    error. *)
Definition fallback_stage (file_path : string) : M (bool * string) :=
  '(ok, text) <- _transcribe_with_speech_recognition file_path ;;
  if (ok : bool) then ret (true, text)
  else ret (false, pystr.or_else text "Transcription failed.").

Definition transcribe_audio (file_path : string) : M (bool * string) :=
  enter F_transcribe_audio ;;
  key <- lift (py_strip (getattr (OPENAI_API_KEY (settings env)) (PyStr ""))) ;;
  if pystr.truthy key
  then
    '(ok, text) <- _transcribe_with_openai file_path ;;
    if (ok : bool) then ret (true, text) else fallback_stage file_path
  else fallback_stage file_path.

End with_env.
End transcribe.

(** ** The extraction of the transcript, as the specification words it

    An ordered list of strategies, each giving a text or nothing; the
    first text that is not empty wins, and the stringified response is the
    last resort.  An exception of the dict conversion is an exception of
    the call. *)

Module extraction_spec.

Definition nonempty_text (v : pyval) : option string :=
  if py_truthy v then Some (py_str v) else None.

(** The [text] attribute. *)
Definition text_attribute (resp : response) : option string :=
  match resp_text resp with
  | Some v => nonempty_text v
  | None => None
  end.

(** The [text] key of a nested [data] structure. *)
Definition data_text_key (resp : response) : option string :=
  match resp_data resp with
  | Some (PyDict items _) => nonempty_text (dict_get items "text" (PyStr ""))
  | _ => None
  end.

(** The [text] key of the dict conversion. *)
Definition to_dict_text_key (resp : response) : result (option string) :=
  match resp_to_dict resp with
  | Some (Ok d) => Ok (nonempty_text (dict_get d "text" (PyStr "")))
  | Some (Raise ex) => Raise ex
  | None => Ok None
  end.

Definition extract (resp : response) : result string :=
  match text_attribute resp with
  | Some text => Ok (pystr.strip text)
  | None =>
      match data_text_key resp with
      | Some text => Ok (pystr.strip text)
      | None =>
          match to_dict_text_key resp with
          | Ok (Some text) => Ok (pystr.strip text)
          | Ok None => Ok (pystr.strip (resp_str resp))
          | Raise ex => Raise ex
          end
      end
  end.

(** The [text] attribute is not a dict with entries. *)
Definition text_attribute_plain (resp : response) : bool :=
  let attr := getattr (resp_text resp) (PyStr "") in
  negb (py_truthy attr && isinstance_dict attr).

(** When the [text] attribute is absent or empty, the [data] attribute is
    absent, empty or a dict. *)
Definition data_attribute_plain (resp : response) : bool :=
  py_truthy (getattr (resp_text resp) (PyStr ""))
  || (let d := getattr (resp_data resp) PyNone in
      isinstance_dict d || negb (py_truthy d)).

End extraction_spec.

(** ** [api/services/chat.py] *)

Module chat.
Section with_env.
Variable env : Env.

Definition _openai_client : M (option Client) :=
  enter F_chat_openai_client ;;
  api_key <- lift match OPENAI_API_KEY (settings env) with
                  | Some key => py_strip key
                  | None => Ok ""
                  end ;;
  if negb (pystr.truthy api_key) || negb (OpenAI_imported env) then ret None
  else
    client <- extern (EOpenAI api_key) (OpenAI_init env api_key) ;;
    ret (Some client).

Definition not_configured_reply : string :=
  "OpenAI is not configured. Please set OPENAI_API_KEY to enable chat replies.".

(** The request is sent with [temperature=0.7]; a message is its role and
    its content. *)
Definition send_chat (message context : string) : M string :=
  enter F_send_chat ;;
  client <- _openai_client ;;
  match client with
  | None => ret not_configured_reply
  | Some client =>
      let model := getattr (OPENAI_MODEL (settings env)) "gpt-4o-mini" in
      let messages :=
        (if pystr.truthy context then [("system", context)] else [])
        ++ [("user", message)] in
      resp <- extern (EChatCompletionsCreate model messages)
                (chat_completions_create env client model messages) ;;
      match choices resp with
      | Some (first :: _) => ret (pystr.or_else (getattr first "") "")
      | _ => ret ""
      end
  end.

End with_env.
End chat.

(** ** [api/views.py] *)

Module views.

Inductive json : Type :=
| JBool (b : bool)
| JStr (s : string)
| JErrors (fields : list (string * list string)).

(** [Response(data, status=...)] *)
Record Response : Type := {
  data : list (string * json);
  status : nat;
}.

Definition HTTP_200_OK : nat := 200.
Definition HTTP_400_BAD_REQUEST : nat := 400.
Definition HTTP_500_INTERNAL_SERVER_ERROR : nat := 500.

(** What the serializer made of [request.data]: [serializer.errors] when
    [is_valid()] is false, [serializer.validated_data] otherwise. *)
Inductive validation (A : Type) : Type :=
| Invalid (errors : list (string * list string))
| Valid (validated_data : A).
Arguments Invalid {A} errors.
Arguments Valid {A} validated_data.

(** [validated_data] of [ChatRequestSerializer]. *)
Record ChatRequest : Type := {
  message : string;
  context : option string;
}.

Section with_env.
Variable env : Env.

Definition health : M Response :=
  ret {| data := [("message", JStr "Server is up!")]; status := HTTP_200_OK |}.

(** [tmp_path = None; try: tmp_path, _ = save_uploaded_file_temporarily(file_obj); body
    finally: safe_unlink(tmp_path)] *)
Definition with_staged_file {A : Type}
    (file_obj : audio.UploadedFile) (body : string -> M A) : M A :=
  match audio.save_uploaded_file_temporarily env file_obj with
  | (t, Raise ex) => try_finally (t, Raise ex) (audio.safe_unlink env None)
  | (t, Ok (tmp_path, _)) =>
      try_finally ((t, Ok tt) ;; body tmp_path) (audio.safe_unlink env (Some tmp_path))
  end.

Definition transcribe_view (request : validation audio.UploadedFile) : M Response :=
  match request with
  | Invalid errors =>
      ret {| data := [("ok", JBool false); ("error", JErrors errors)];
             status := HTTP_400_BAD_REQUEST |}
  | Valid file_obj =>
      with_staged_file file_obj (fun tmp_path =>
        '(ok, result) <- transcribe.transcribe_audio env tmp_path ;;
        if (ok : bool) then
          if getattr (DEBUG_TRANSCRIPTS (settings env)) false
          then ret {| data := [("ok", JBool true); ("transcript", JStr result);
                               ("debug", JBool true)];
                      status := HTTP_200_OK |}
          else ret {| data := [("ok", JBool true); ("transcript", JStr result)];
                      status := HTTP_200_OK |}
        else ret {| data := [("ok", JBool false); ("error", JStr result)];
                    status := HTTP_500_INTERNAL_SERVER_ERROR |})
  end.

Definition chat_view (request : validation ChatRequest) : M Response :=
  match request with
  | Invalid errors =>
      ret {| data := [("ok", JBool false); ("error", JErrors errors)];
             status := HTTP_400_BAD_REQUEST |}
  | Valid validated_data =>
      let message := message validated_data in
      let context := getattr (context validated_data) "" in
      try_except
        (reply <- chat.send_chat env message context ;;
         ret {| data := [("ok", JBool true); ("reply", JStr reply)];
                status := HTTP_200_OK |})
        (fun ex =>
           ret {| data := [("ok", JBool false); ("error", JStr (exn_detail ex))];
                  status := HTTP_500_INTERNAL_SERVER_ERROR |})
  end.

Definition voice_chat_view (request : validation audio.UploadedFile) : M Response :=
  match request with
  | Invalid errors =>
      ret {| data := [("ok", JBool false); ("error", JErrors errors)];
             status := HTTP_400_BAD_REQUEST |}
  | Valid file_obj =>
      with_staged_file file_obj (fun tmp_path =>
        '(ok, result) <- transcribe.transcribe_audio env tmp_path ;;
        if negb ok then
          ret {| data := [("ok", JBool false); ("error", JStr result)];
                 status := HTTP_500_INTERNAL_SERVER_ERROR |}
        else
          let transcript := pystr.strip result in
          if negb (pystr.truthy transcript) then
            ret {| data := [("ok", JBool false); ("error", JStr "Transcript is empty.")];
                   status := HTTP_500_INTERNAL_SERVER_ERROR |}
          else
            reply <- chat.send_chat env transcript "" ;;
            ret {| data := [("ok", JBool true); ("transcript", JStr transcript);
                            ("reply", JStr reply)];
                   status := HTTP_200_OK |})
  end.

End with_env.
End views.

(** ** Sample environments and inputs *)

Module samples.

Definition no_settings : Settings :=
  {| OPENAI_API_KEY := None;
     OPENAI_TRANSCRIPTION_MODEL := None;
     OPENAI_MODEL := None;
     DEBUG_TRANSCRIPTS := None |}.

Definition keyed_settings : Settings :=
  {| OPENAI_API_KEY := Some (PyStr " sk-test ");
     OPENAI_TRANSCRIPTION_MODEL := None;
     OPENAI_MODEL := None;
     DEBUG_TRANSCRIPTS := None |}.

Definition blank_key_settings : Settings :=
  {| OPENAI_API_KEY := Some (PyStr "  ");
     OPENAI_TRANSCRIPTION_MODEL := None;
     OPENAI_MODEL := None;
     DEBUG_TRANSCRIPTS := None |}.

Definition OSError (detail : string) : exn :=
  {| exn_class := "OSError"; exn_detail := detail |}.

Definition plain_response (text : string) : response :=
  {| resp_text := Some (PyStr text);
     resp_data := None;
     resp_to_dict := None;
     resp_str := "Transcription(text=...)" |}.

(** No credential and no SpeechRecognition library; nothing outside the
    program works. *)
Definition bare_env : Env :=
  {| settings := no_settings;
     OpenAI_imported := false;
     sr_imported := false;
     OpenAI_init := fun _ => Raise (OSError "no SDK");
     open_rb := fun _ => Raise (OSError "No such file or directory");
     transcriptions_create := fun _ _ _ => Raise (OSError "Connection error.");
     chat_completions_create := fun _ _ _ => Raise (OSError "Connection error.");
     sr_Recognizer := Ok tt;
     sr_record := fun _ => Raise (OSError "unreadable");
     recognize_sphinx := fun _ => Raise (OSError "missing PocketSphinx module");
     recognize_google := fun _ => Raise (OSError "recognition connection failed");
     mkstemp := fun prefix suffix => Ok ("/tmp/" +:+ prefix +:+ "x1" +:+ suffix);
     fd_write := fun _ _ => Ok tt;
     fd_close := fun _ => Ok tt;
     os_path_exists := fun _ => Ok false;
     os_remove := fun _ => Raise (OSError "No such file or directory") |}.

(** A credential is set and the remote service answers [{text: "hello world"}]. *)
Definition remote_env : Env :=
  {| settings := keyed_settings;
     OpenAI_imported := true;
     sr_imported := true;
     OpenAI_init := fun key => Ok {| client_id := key |};
     open_rb := fun _ => Ok tt;
     transcriptions_create := fun _ _ _ => Ok (plain_response " hello world ");
     chat_completions_create := fun _ _ _ => Ok {| choices := Some [Some "hi"] |};
     sr_Recognizer := Ok tt;
     sr_record := fun _ => Ok "frames";
     recognize_sphinx := fun _ => Ok "offline words";
     recognize_google := fun _ => Ok "online words";
     mkstemp := fun prefix suffix => Ok ("/tmp/" +:+ prefix +:+ "x1" +:+ suffix);
     fd_write := fun _ _ => Ok tt;
     fd_close := fun _ => Ok tt;
     os_path_exists := fun _ => Ok true;
     os_remove := fun _ => Ok tt |}.

(** No credential; the offline recognizer raises and the online one
    answers ["test phrase"]. *)
Definition fallback_env : Env :=
  {| settings := blank_key_settings;
     OpenAI_imported := true;
     sr_imported := true;
     OpenAI_init := fun key => Ok {| client_id := key |};
     open_rb := fun _ => Ok tt;
     transcriptions_create := fun _ _ _ => Ok (plain_response "never asked");
     chat_completions_create := fun _ _ _ => Ok {| choices := None |};
     sr_Recognizer := Ok tt;
     sr_record := fun _ => Ok "frames";
     recognize_sphinx := fun _ => Raise (OSError "missing PocketSphinx module");
     recognize_google := fun _ => Ok "test phrase";
     mkstemp := fun prefix suffix => Ok ("/tmp/" +:+ prefix +:+ "x1" +:+ suffix);
     fd_write := fun _ _ => Ok tt;
     fd_close := fun _ => Ok tt;
     os_path_exists := fun _ => Ok true;
     os_remove := fun _ => Raise (OSError "Permission denied") |}.

(** An environment with the SDK and the SpeechRecognition library
    installed, given by the answers that differ between scenarios. *)
Definition make_env (s : Settings)
    (init : string -> result Client) (created : result response)
    (recorded : result AudioData) (sphinx google : result string) : Env :=
  {| settings := s;
     OpenAI_imported := true;
     sr_imported := true;
     OpenAI_init := init;
     open_rb := fun _ => Ok tt;
     transcriptions_create := fun _ _ _ => created;
     chat_completions_create := fun _ _ _ => Ok {| choices := Some [Some "hi"] |};
     sr_Recognizer := Ok tt;
     sr_record := fun _ => recorded;
     recognize_sphinx := fun _ => sphinx;
     recognize_google := fun _ => google;
     mkstemp := fun prefix suffix => Ok ("/tmp/" +:+ prefix +:+ "x1" +:+ suffix);
     fd_write := fun _ _ => Ok tt;
     fd_close := fun _ => Ok tt;
     os_path_exists := fun _ => Ok true;
     os_remove := fun _ => Ok tt |}.

Definition build_client (key : string) : result Client := Ok {| client_id := key |}.

(** The remote call raises and the audio file cannot be read. *)
Definition failing_env : Env :=
  make_env keyed_settings build_client
    (Raise (OSError "Connection error."))
    (Raise (OSError "unreadable"))
    (Ok "offline words") (Ok "online words").

(** Both recognizers raise. *)
Definition deaf_env : Env :=
  make_env no_settings build_client
    (Raise (OSError "Connection error."))
    (Ok "frames")
    (Raise (OSError "missing PocketSphinx module"))
    (Raise (OSError "recognition connection failed")).

(** The offline recognizer answers. *)
Definition sphinx_env : Env :=
  make_env no_settings build_client
    (Raise (OSError "Connection error."))
    (Ok "frames") (Ok "offline words") (Ok "online words").

(** The recognizer hears nothing but whitespace. *)
Definition silence_env : Env :=
  make_env no_settings build_client
    (Raise (OSError "Connection error."))
    (Ok "frames") (Ok "   ") (Ok "online words").

(** A credential is set, and the SDK cannot build its client: an installed
    [openai] that passes [proxies] to an [httpx] that no longer takes it. *)
Definition broken_sdk_env : Env :=
  make_env keyed_settings
    (fun _ => Raise {| exn_class := "TypeError";
                       exn_detail := "Client.__init__() got an unexpected keyword argument 'proxies'" |})
    (Ok (plain_response "hello world"))
    (Ok "frames") (Ok "offline words") (Ok "online words").

(** A response without [text] whose [data] is a list. *)
Definition list_data_response : response :=
  {| resp_text := None;
     resp_data := Some (PyOther "list" true "['hello']");
     resp_to_dict := None;
     resp_str := "Transcription()" |}.

Definition list_data_env : Env :=
  make_env keyed_settings build_client (Ok list_data_response)
    (Ok "frames") (Ok "offline words") (Ok "online words").

(** A response whose text is only found in its dict conversion. *)
Definition to_dict_response : response :=
  {| resp_text := Some (PyStr "");
     resp_data := Some (PyDict [("id", PyStr "t1")] "{'id': 't1'}");
     resp_to_dict := Some (Ok [("text", PyStr " good morning ")]);
     resp_str := "Transcription()" |}.

Definition to_dict_env : Env :=
  make_env keyed_settings build_client (Ok to_dict_response)
    (Ok "frames") (Ok "offline words") (Ok "online words").

Definition wav_upload : audio.UploadedFile :=
  {| audio.content_type := Some "audio/wav"; audio.chunks := ["RIFF"; "data"] |}.

End samples.

(** ** [api/serializers.py] *)

Module serializers.

(** What [validate_audio] reads of [django.conf.settings]:
    [ALLOWED_AUDIO_MIME_TYPES], a list of strings, and
    [MAX_AUDIO_FILE_MB], an integer. *)
Record AudioSettings : Type := {
  ALLOWED_AUDIO_MIME_TYPES : list string;
  MAX_AUDIO_FILE_MB : Z;
}.

(** The uploaded file as the serializer receives it: the file, and its
    [size] in bytes ([None] when it is not known). *)
Record SizedFile : Type := {
  upload : audio.UploadedFile;
  size : option Z;
}.

(** [str(n)] of an integer, as an f-string prints it. *)
Definition str_int (n : Z) : string := NilZero.string_of_int (Z.to_int n).

(** [x in l] *)
Definition contains (l : list string) (x : string) : bool :=
  existsb (String.eqb x) l.

(** [AudioUploadSerializer.validate_audio]; [inl message] is
    [raise serializers.ValidationError(message)]. *)
Definition validate_audio (cfg : AudioSettings) (file_obj : SizedFile)
    : string + SizedFile :=
  let content_type := audio.content_type (upload file_obj) in
  let unsupported :=
    match content_type with
    | Some ct =>
        if pystr.truthy ct && negb (contains (ALLOWED_AUDIO_MIME_TYPES cfg) ct)
        then Some ct else None
    | None => None
    end in
  match unsupported with
  | Some ct =>
      inl ("Unsupported audio type '" +:+ ct +:+ "'. " +:+
           "Allowed: " +:+ String.concat ", " (ALLOWED_AUDIO_MIME_TYPES cfg))
  | None =>
      let max_bytes := (MAX_AUDIO_FILE_MB cfg * 1024 * 1024)%Z in
      let too_large :=
        match size file_obj with
        | Some n => negb (n =? 0)%Z && (n >? max_bytes)%Z
        | None => false
        end in
      if too_large
      then inl ("File too large. Max " +:+ str_int (MAX_AUDIO_FILE_MB cfg) +:+ " MB allowed.")
      else inr file_obj
  end.

End serializers.

(** ** Further classes of events *)

(** The chat dependency together with the construction of its client. *)
Definition chat_stage_event (e : event) : bool :=
  match e with
  | EOpenAI _ => true
  | _ => chat_event e
  end.

(** What an operation on an upload may do besides cleaning up. *)
Definition working_event (e : event) : bool :=
  staging_event e || resolver_event e || chat_stage_event e.

(** The events of [safe_unlink] on the path [p]. *)
Definition cleanup_of (p : string) (e : event) : bool :=
  match e with
  | Enter F_safe_unlink => true
  | EPathExists q | ERemove q => String.eqb q p
  | _ => false
  end.

(** The string does not start with whitespace. *)
Definition starts_clean (s : string) : bool :=
  match s with
  | EmptyString => true
  | String c _ => negb (pystr.isspace c)
  end.

(** A chat completion request. *)
Definition is_completion_request (e : event) : bool :=
  match e with
  | EChatCompletionsCreate _ _ => true
  | _ => false
  end.

(** The events [EWrite path c] of the chunks [cs], in order. *)
Definition writes (path : string) (cs : list string) : trace :=
  map (EWrite path) cs.

(** ** Further sample environments *)

Module scenarios.

(** [env], with another answer of the chat completion request. *)
Definition with_chat (env : Env) (answer : result chat_response) : Env :=
  {| settings := settings env;
     OpenAI_imported := OpenAI_imported env;
     sr_imported := sr_imported env;
     OpenAI_init := OpenAI_init env;
     open_rb := open_rb env;
     transcriptions_create := transcriptions_create env;
     chat_completions_create := fun _ _ _ => answer;
     sr_Recognizer := sr_Recognizer env;
     sr_record := sr_record env;
     recognize_sphinx := recognize_sphinx env;
     recognize_google := recognize_google env;
     mkstemp := mkstemp env;
     fd_write := fd_write env;
     fd_close := fd_close env;
     os_path_exists := os_path_exists env;
     os_remove := os_remove env |}.

(** [env], with a disk that is full when the chunk ["data"] is written. *)
Definition with_full_disk (env : Env) : Env :=
  {| settings := settings env;
     OpenAI_imported := OpenAI_imported env;
     sr_imported := sr_imported env;
     OpenAI_init := OpenAI_init env;
     open_rb := open_rb env;
     transcriptions_create := transcriptions_create env;
     chat_completions_create := chat_completions_create env;
     sr_Recognizer := sr_Recognizer env;
     sr_record := sr_record env;
     recognize_sphinx := recognize_sphinx env;
     recognize_google := recognize_google env;
     mkstemp := mkstemp env;
     fd_write := fun _ chunk =>
       if String.eqb chunk "data"
       then Raise (samples.OSError "No space left on device")
       else Ok tt;
     fd_close := fd_close env;
     os_path_exists := os_path_exists env;
     os_remove := os_remove env |}.

Definition full_disk_env : Env := with_full_disk samples.remote_env.



(** [OPENAI_API_KEY] is set, to [None]. *)
Definition none_key_settings : Settings :=
  {| OPENAI_API_KEY := Some PyNone;
     OPENAI_TRANSCRIPTION_MODEL := None;
     OPENAI_MODEL := None;
     DEBUG_TRANSCRIPTS := None |}.

Definition none_key_env : Env :=
  samples.make_env none_key_settings samples.build_client
    (Ok (samples.plain_response "hello world"))
    (Ok "frames") (Ok "offline words") (Ok "online words").

(** A credential is set, the remote call raises, the offline recognizer
    answers. *)
Definition remote_down_env : Env :=
  samples.make_env samples.keyed_settings samples.build_client
    (Raise (samples.OSError "Connection error."))
    (Ok "frames") (Ok "offline words") (Ok "online words").

(** The transcription works and the chat request raises. *)
Definition chat_down_env : Env :=
  with_chat samples.remote_env (Raise (samples.OSError "Rate limit reached")).


(** The SpeechRecognition library cannot build its recognizer. *)
Definition broken_recognizer_env : Env :=
  {| settings := samples.no_settings;
     OpenAI_imported := true;
     sr_imported := true;
     OpenAI_init := samples.build_client;
     open_rb := fun _ => Ok tt;
     transcriptions_create := fun _ _ _ => Ok (samples.plain_response "hello world");
     chat_completions_create := fun _ _ _ => Ok {| choices := None |};
     sr_Recognizer := Raise (samples.OSError "recognizer unavailable");
     sr_record := fun _ => Ok "frames";
     recognize_sphinx := fun _ => Ok "offline words";
     recognize_google := fun _ => Ok "online words";
     mkstemp := fun prefix suffix => Ok ("/tmp/" +:+ prefix +:+ "x1" +:+ suffix);
     fd_write := fun _ _ => Ok tt;
     fd_close := fun _ => Ok tt;
     os_path_exists := fun _ => Ok true;
     os_remove := fun _ => Ok tt |}.

Definition audio_settings : serializers.AudioSettings :=
  {| serializers.ALLOWED_AUDIO_MIME_TYPES :=
       ["audio/wav"; "audio/x-wav"; "audio/mpeg"; "audio/mp3"];
     serializers.MAX_AUDIO_FILE_MB := 25 |}.

Definition sized (content_type : option string) (size : option Z) : serializers.SizedFile :=
  {| serializers.upload :=
       {| audio.content_type := content_type; audio.chunks := ["RIFF"; "data"] |};
     serializers.size := size |}.

Definition chat_request : views.ChatRequest :=
  {| views.message := "hello"; views.context := Some "be brief" |}.

End scenarios.

(** * Properties *)

(** ** Strings *)

Section pystr_facts.
Import pystr.

Lemma blank_lstrip (s : string) : blank (lstrip s) = blank s.
Proof.
  induction s as [|c rest IH]; simpl; [reflexivity|].
  destruct (isspace c) eqn:Hc; simpl; [exact IH | now rewrite Hc].
Qed.

Lemma rstrip_empty_iff (s : string) : rstrip s = "" <-> blank s = true.
Proof.
  induction s as [|c rest IH]; simpl; [tauto|].
  destruct (rstrip rest) eqn:Hr, (isspace c) eqn:Hc; simpl;
    split; intros H; try discriminate; try reflexivity.
  - apply IH; reflexivity.
  - apply IH in H. discriminate.
Qed.

Lemma strip_empty_iff (s : string) : strip s = "" <-> blank s = true.
Proof. unfold strip. rewrite rstrip_empty_iff. now rewrite blank_lstrip. Qed.

Lemma truthy_false_iff (s : string) : truthy s = false <-> s = "".
Proof. destruct s; simpl; split; intros H; congruence. Qed.

Lemma truthy_true_iff (s : string) : truthy s = true <-> s <> "".
Proof. destruct s; simpl; split; intros H; congruence. Qed.

Lemma or_else_empty_r (s : string) : or_else s "" = s.
Proof. now destruct s. Qed.

End pystr_facts.

(** ** Traces *)

Section trace_facts.
Context {A B : Type}.
Implicit Types (P Q : event -> bool).

Lemma emits_ret P (a : A) : emits P (ret a).
Proof. reflexivity. Qed.

Lemma emits_raise P (e : exn) : emits P (raise e : M A).
Proof. reflexivity. Qed.

Lemma emits_lift P (r : result A) : emits P (lift r).
Proof. reflexivity. Qed.

Lemma emits_extern P (e : event) (r : result A) : P e = true -> emits P (extern e r).
Proof. unfold emits; simpl. now intros ->. Qed.

Lemma emits_bind P (m : M A) (k : A -> M B) :
  emits P m -> (forall a, emits P (k a)) -> emits P (bind m k).
Proof.
  unfold emits, bind, events_of. destruct m as [t [a|e]]; simpl; intros Ht Hk; [|exact Ht].
  specialize (Hk a). destruct (k a) as [t' r]; simpl in *.
  rewrite forallb_app, Ht, Hk. reflexivity.
Qed.

Lemma emits_try_except P (m : M A) (h : exn -> M A) :
  emits P m -> (forall e, emits P (h e)) -> emits P (try_except m h).
Proof.
  unfold emits, try_except, events_of. destruct m as [t [a|e]]; simpl; intros Ht Hh; [exact Ht|].
  specialize (Hh e). destruct (h e) as [t' r]; simpl in *.
  rewrite forallb_app, Ht, Hh. reflexivity.
Qed.

Lemma emits_try_finally P (m : M A) (f : M unit) :
  emits P m -> emits P f -> emits P (try_finally m f).
Proof.
  unfold emits, try_finally, events_of. destruct m as [t r], f as [t' [[]|e]]; simpl;
    intros Ht Hf; rewrite forallb_app, Ht, Hf; reflexivity.
Qed.

Lemma emits_weaken P Q (m : M A) :
  (forall e, P e = true -> Q e = true) -> emits P m -> emits Q m.
Proof.
  unfold emits. intros HPQ. induction (events_of m) as [|e t IH]; simpl; [reflexivity|].
  intros [He Ht]%andb_true_iff. rewrite (HPQ e He), (IH Ht). reflexivity.
Qed.

Lemma events_of_bind (m : M A) (k : A -> M B) :
  events_of (bind m k)
  = events_of m ++ match outcome m with
                   | Ok a => events_of (k a)
                   | Raise _ => []
                   end.
Proof.
  unfold bind, events_of, outcome. destruct m as [t [a|e]]; simpl.
  - now destruct (k a).
  - now rewrite app_nil_r.
Qed.

Lemma emits_events P (m : M A) (t : trace) (r : result A) :
  m = (t, r) -> emits P m -> forallb P t = true.
Proof. intros ->. exact id. Qed.

End trace_facts.

Lemma bind_lift_ok {A B : Type} (a : A) (k : A -> M B) : bind (lift (Ok a)) k = k a.
Proof. unfold bind, lift. now destruct (k a). Qed.

Lemma emits_enter P (f : func) : P (Enter f) = true -> emits P (enter f).
Proof. unfold emits; simpl. now intros ->. Qed.

(** One step of a proof that a computation stays within a class of events. *)
Ltac emits_step :=
  match goal with
  | |- emits _ (bind _ _) => apply emits_bind; [| intros ?]
  | |- emits _ (try_except _ _) => apply emits_try_except; [| intros ?]
  | |- emits _ (try_finally _ _) => apply emits_try_finally
  | |- emits _ (ret _) => apply emits_ret
  | |- emits _ (lift _) => apply emits_lift
  | |- emits _ (enter _) => apply emits_enter; reflexivity
  | |- emits _ (extern _ _) => apply emits_extern; reflexivity
  | |- emits _ (if ?b then _ else _) => destruct b
  | |- emits _ (match ?x with _ => _ end) => destruct x
  | |- emits _ (let _ := _ in _) => cbv zeta
  end.

(** ** Upload staging and cleanup *)

Lemma write_chunks_events (env : Env) (path : string) (cs : list string) :
  emits staging_event (audio.write_chunks env path cs).
Proof.
  induction cs as [|chunk rest IH]; cbn [audio.write_chunks]; [apply emits_ret|].
  apply emits_bind; [apply emits_extern; reflexivity | intros _; exact IH].
Qed.

Lemma save_uploaded_file_temporarily_events (env : Env) (file_obj : audio.UploadedFile) :
  emits staging_event (audio.save_uploaded_file_temporarily env file_obj).
Proof.
  unfold audio.save_uploaded_file_temporarily.
  repeat first [apply write_chunks_events | emits_step].
Qed.

Lemma safe_unlink_events (env : Env) (path : option string) :
  emits cleanup_event (audio.safe_unlink env path).
Proof. unfold audio.safe_unlink. repeat emits_step. Qed.

Lemma safe_unlink_returns (env : Env) (path : option string) :
  outcome (audio.safe_unlink env path) = Ok tt.
Proof.
  unfold audio.safe_unlink. destruct path as [p|]; [|reflexivity].
  destruct (pystr.truthy p); simpl; [|reflexivity].
  destruct (os_path_exists env p) as [[|]|e]; simpl; try reflexivity.
  destruct (os_remove env p) as [[]|e]; reflexivity.
Qed.

(** C8: the declared content types "audio/wav" and "audio/x-wav" give the
    extension ".wav", "audio/mpeg" and "audio/mp3" give ".mp3", and every
    other declared content type, a missing one included, gives ".bin". *)
Theorem guess_extension_from_mime_table (mime : option string) :
  audio._guess_extension_from_mime mime =
    if bool_decide (mime = Some "audio/wav" \/ mime = Some "audio/x-wav") then ".wav"
    else if bool_decide (mime = Some "audio/mpeg" \/ mime = Some "audio/mp3") then ".mp3"
    else ".bin".
Proof.
  destruct mime as [m|]; [|reflexivity].
  unfold audio._guess_extension_from_mime. rewrite or_else_empty_r.
  destruct (decide (m = "audio/wav")) as [->|H1]; [reflexivity|].
  destruct (decide (m = "audio/x-wav")) as [->|H2]; [reflexivity|].
  destruct (decide (m = "audio/mpeg")) as [->|H3]; [reflexivity|].
  destruct (decide (m = "audio/mp3")) as [->|H4]; [reflexivity|].
  unfold audio.mapping.
  rewrite !lookup_insert_ne, lookup_singleton_ne by congruence.
  rewrite !bool_decide_eq_false_2; [reflexivity| |]; intros [H|H]; congruence.
Qed.

(** C9: [safe_unlink] never raises, whatever the path and whatever the file
    system answers; with no path or an empty path it does nothing at all;
    with a path that does not exist it only looks and removes nothing; and
    an error of the removal of an existing path is swallowed. *)
Theorem safe_unlink_never_raises (env : Env) :
  (forall path, outcome (audio.safe_unlink env path) = Ok tt) /\
  audio.safe_unlink env None = ([Enter F_safe_unlink], Ok tt) /\
  audio.safe_unlink env (Some "") = ([Enter F_safe_unlink], Ok tt) /\
  (forall p, p <> "" -> os_path_exists env p = Ok false ->
     audio.safe_unlink env (Some p) = ([Enter F_safe_unlink; EPathExists p], Ok tt)) /\
  (forall p e, p <> "" -> os_path_exists env p = Ok true -> os_remove env p = Raise e ->
     audio.safe_unlink env (Some p)
     = ([Enter F_safe_unlink; EPathExists p; ERemove p], Ok tt)).
Proof.
  split; [apply safe_unlink_returns|].
  repeat split; try reflexivity.
  - intros p Hp Hex. unfold audio.safe_unlink.
    apply truthy_true_iff in Hp. rewrite Hp, Hex. reflexivity.
  - intros p e Hp Hex Hrm. unfold audio.safe_unlink.
    apply truthy_true_iff in Hp. rewrite Hp, Hex, Hrm. reflexivity.
Qed.

Lemma safe_unlink_never_raises_witness :
  audio.safe_unlink samples.bare_env (Some "/tmp/audio_gone.wav")
  = ([Enter F_safe_unlink; EPathExists "/tmp/audio_gone.wav"], Ok tt) /\
  audio.safe_unlink samples.fallback_env (Some "/tmp/audio_x1.wav")
  = ([Enter F_safe_unlink; EPathExists "/tmp/audio_x1.wav"; ERemove "/tmp/audio_x1.wav"],
     Ok tt).
Proof.
  split.
  - apply (proj1 (proj2 (proj2 (proj2 (safe_unlink_never_raises samples.bare_env))))).
    + discriminate.
    + reflexivity.
  - apply (proj2 (proj2 (proj2 (proj2 (safe_unlink_never_raises samples.fallback_env))))
             "/tmp/audio_x1.wav" (samples.OSError "Permission denied")).
    + discriminate.
    + reflexivity.
    + reflexivity.
Defined.

(** ** The transcription resolver *)

Lemma remote_not_fallback (e : event) :
  remote_event e = true -> negb (fallback_event e) = true.
Proof. destruct e as [[]| | | | | | | | | | | | | |]; simpl; congruence. Qed.

Lemma fallback_not_remote (e : event) :
  fallback_event e = true -> negb (remote_event e) = true.
Proof. destruct e as [[]| | | | | | | | | | | | | |]; simpl; congruence. Qed.

Lemma unconfigured_key (s : Settings) :
  credential_unconfigured s -> trimmed_key s = Ok "".
Proof.
  unfold credential_unconfigured, trimmed_key.
  destruct (OPENAI_API_KEY s) as [[|key|items shown|tyname truth shown]|];
    cbn; try tauto.
  now intros ->.
Qed.

Lemma transcribe_audio_with_key (env : Env) (file_path key : string) :
  trimmed_key (settings env) = Ok key ->
  transcribe.transcribe_audio env file_path
  = (enter F_transcribe_audio ;;
     if pystr.truthy key
     then
       '(ok, text) <- transcribe._transcribe_with_openai env file_path ;;
       if (ok : bool) then ret (true, text)
       else transcribe.fallback_stage env file_path
     else transcribe.fallback_stage env file_path).
Proof.
  unfold trimmed_key, transcribe.transcribe_audio. intros ->.
  now rewrite bind_lift_ok.
Qed.

Lemma transcribe_audio_without_key (env : Env) (file_path : string) (ex : exn) :
  trimmed_key (settings env) = Raise ex ->
  transcribe.transcribe_audio env file_path = ([Enter F_transcribe_audio], Raise ex).
Proof. unfold trimmed_key, transcribe.transcribe_audio. now intros ->. Qed.

Lemma openai_client_with_key (env : Env) (key : string) :
  trimmed_key (settings env) = Ok key ->
  transcribe._openai_client env
  = (enter F_transcribe_openai_client ;;
     if negb (pystr.truthy key) || negb (OpenAI_imported env) then ret None
     else
       client <- extern (EOpenAI key) (OpenAI_init env key) ;;
       ret (Some client)).
Proof.
  unfold trimmed_key, transcribe._openai_client. intros ->.
  now rewrite bind_lift_ok.
Qed.

Lemma openai_client_without_key (env : Env) (ex : exn) :
  trimmed_key (settings env) = Raise ex ->
  transcribe._openai_client env = ([Enter F_transcribe_openai_client], Raise ex).
Proof. unfold trimmed_key, transcribe._openai_client. now intros ->. Qed.

Lemma openai_client_events (env : Env) :
  emits remote_event (transcribe._openai_client env).
Proof. unfold transcribe._openai_client. repeat emits_step. Qed.

Lemma extract_text_events (P : event -> bool) (resp : response) :
  emits P (transcribe.extract_text resp).
Proof. unfold transcribe.extract_text. repeat emits_step. Qed.

Lemma transcribe_with_openai_events (env : Env) (file_path : string) :
  emits remote_event (transcribe._transcribe_with_openai env file_path).
Proof.
  unfold transcribe._transcribe_with_openai.
  repeat first [apply openai_client_events | apply extract_text_events | emits_step].
Qed.

Lemma transcribe_with_speech_recognition_events (env : Env) (file_path : string) :
  emits fallback_event (transcribe._transcribe_with_speech_recognition env file_path).
Proof. unfold transcribe._transcribe_with_speech_recognition. repeat emits_step. Qed.

Lemma fallback_stage_events (env : Env) (file_path : string) :
  emits fallback_event (transcribe.fallback_stage env file_path).
Proof.
  unfold transcribe.fallback_stage.
  repeat first [apply transcribe_with_speech_recognition_events | emits_step].
Qed.

Lemma transcribe_audio_events (env : Env) (file_path : string) :
  emits resolver_event (transcribe.transcribe_audio env file_path).
Proof.
  assert (Hr : forall e, remote_event e = true -> resolver_event e = true).
  { intros e He. unfold resolver_event. rewrite He. now destruct e as [[]| | | | | | | | | | | | | |]. }
  assert (Hf : forall e, fallback_event e = true -> resolver_event e = true).
  { intros e He. unfold resolver_event. rewrite He, orb_true_r.
    now destruct e as [[]| | | | | | | | | | | | | |]. }
  unfold transcribe.transcribe_audio.
  repeat first
    [ apply (emits_weaken _ _ _ Hr), transcribe_with_openai_events
    | apply (emits_weaken _ _ _ Hf), fallback_stage_events
    | emits_step ].
Qed.

(** Without a usable credential the remote stage answers "not configured". *)
Lemma transcribe_with_openai_unconfigured (env : Env) (file_path key : string) :
  trimmed_key (settings env) = Ok key ->
  pystr.truthy key = false ->
  transcribe._transcribe_with_openai env file_path
  = ([Enter F_transcribe_with_openai; Enter F_transcribe_openai_client],
     Ok (false, "OpenAI is not configured.")).
Proof.
  intros Hkey Hempty. unfold transcribe._transcribe_with_openai.
  rewrite (openai_client_with_key env key Hkey), Hempty. reflexivity.
Qed.

(** A credential that cannot be trimmed makes the remote stage raise. *)
Lemma transcribe_with_openai_without_key (env : Env) (file_path : string) (ex : exn) :
  trimmed_key (settings env) = Raise ex ->
  transcribe._transcribe_with_openai env file_path
  = ([Enter F_transcribe_with_openai; Enter F_transcribe_openai_client], Raise ex).
Proof.
  intros Hkey. unfold transcribe._transcribe_with_openai.
  rewrite (openai_client_without_key env ex Hkey). reflexivity.
Qed.

(** C1: when the remote attempt returns ok=true with a text,
    [transcribe_audio] returns (true, that text) right after it, and the
    SpeechRecognition fallback is not invoked: no event of the fallback
    stage occurs. *)
Theorem remote_success_skips_fallback
    (env : Env) (file_path : string) (t : trace) (text : string) :
  transcribe._transcribe_with_openai env file_path = (t, Ok (true, text)) ->
  transcribe.transcribe_audio env file_path
  = (Enter F_transcribe_audio :: t, Ok (true, text)) /\
  never fallback_event (transcribe.transcribe_audio env file_path).
Proof.
  intros Hremote.
  assert (Hkey : exists key,
             trimmed_key (settings env) = Ok key /\ pystr.truthy key = true).
  { destruct (trimmed_key (settings env)) as [key|ex] eqn:Hk.
    - exists key. split; [reflexivity|].
      destruct (pystr.truthy key) eqn:Hempty; [reflexivity|].
      rewrite (transcribe_with_openai_unconfigured env file_path key Hk Hempty)
        in Hremote.
      discriminate.
    - rewrite (transcribe_with_openai_without_key env file_path ex Hk) in Hremote.
      discriminate. }
  destruct Hkey as (key & Hkey & Htruthy).
  assert (Heq : transcribe.transcribe_audio env file_path
                = (Enter F_transcribe_audio :: t, Ok (true, text))).
  { rewrite (transcribe_audio_with_key env file_path key Hkey), Htruthy, Hremote.
    cbn. rewrite app_nil_r. reflexivity. }
  split; [exact Heq|].
  unfold never, emits. rewrite Heq. simpl.
  pose proof (transcribe_with_openai_events env file_path) as Hev.
  apply (emits_weaken _ _ _ remote_not_fallback) in Hev.
  exact (emits_events _ _ _ _ Hremote Hev).
Qed.

Lemma remote_success_skips_fallback_witness :
  transcribe.transcribe_audio samples.remote_env "/tmp/audio_x1.wav"
  = ([Enter F_transcribe_audio; Enter F_transcribe_with_openai;
      Enter F_transcribe_openai_client; EOpenAI "sk-test";
      EOpen "/tmp/audio_x1.wav";
      ETranscriptionsCreate "whisper-1" "/tmp/audio_x1.wav";
      EClose "/tmp/audio_x1.wav"],
     Ok (true, "hello world")) /\
  never fallback_event (transcribe.transcribe_audio samples.remote_env "/tmp/audio_x1.wav").
Proof.
  apply (remote_success_skips_fallback samples.remote_env "/tmp/audio_x1.wav").
  reflexivity.
Defined.

(** C2: when the credential is unset or empty once trimmed,
    [transcribe_audio] makes no remote attempt (no event of the remote
    stage occurs) and goes straight to the fallback: its run is the entry
    followed by the run of lines 105-111, which starts by invoking
    [_transcribe_with_speech_recognition]. *)
Theorem unconfigured_goes_to_fallback (env : Env) (file_path : string) :
  credential_unconfigured (settings env) ->
  transcribe.transcribe_audio env file_path
  = (enter F_transcribe_audio ;; transcribe.fallback_stage env file_path) /\
  never remote_event (transcribe.transcribe_audio env file_path) /\
  exists t,
    events_of (transcribe.transcribe_audio env file_path)
    = Enter F_transcribe_audio :: Enter F_transcribe_with_speech_recognition :: t.
Proof.
  intros Hkey%unconfigured_key.
  assert (Heq : transcribe.transcribe_audio env file_path
                = (enter F_transcribe_audio ;; transcribe.fallback_stage env file_path)).
  { now rewrite (transcribe_audio_with_key env file_path "" Hkey). }
  split; [exact Heq|]. rewrite Heq. split.
  - apply emits_bind; [apply emits_enter; reflexivity | intros _].
    apply (emits_weaken _ _ _ fallback_not_remote), fallback_stage_events.
  - rewrite events_of_bind. unfold transcribe.fallback_stage.
    rewrite events_of_bind. unfold transcribe._transcribe_with_speech_recognition at 1.
    rewrite events_of_bind. cbn [enter events_of outcome fst snd app].
    eexists. reflexivity.
Qed.

Lemma unconfigured_goes_to_fallback_witness :
  transcribe.transcribe_audio samples.fallback_env "/tmp/audio_x1.wav"
  = ([Enter F_transcribe_audio; Enter F_transcribe_with_speech_recognition;
      ERecognizer; EAudioFileRecord "/tmp/audio_x1.wav";
      ERecognizeSphinx "frames"; ERecognizeGoogle "frames"],
     Ok (true, "test phrase")) /\
  never remote_event (transcribe.transcribe_audio samples.fallback_env "/tmp/audio_x1.wav").
Proof.
  destruct (unconfigured_goes_to_fallback samples.fallback_env "/tmp/audio_x1.wav")
    as (Heq & Hnever & _).
  - reflexivity.
  - split; [rewrite Heq; reflexivity | exact Hnever].
Defined.

(** The message of a failed fallback is never empty, so the default
    "Transcription failed." of line 111 is not reached. *)
Lemma fallback_failure_message_nonempty
    (env : Env) (file_path : string) (t : trace) (m : string) :
  transcribe._transcribe_with_speech_recognition env file_path = (t, Ok (false, m)) ->
  m <> "".
Proof.
  unfold transcribe._transcribe_with_speech_recognition.
  destruct (sr_imported env); cbn; [|intros [= _ <-]; discriminate].
  destruct (sr_Recognizer env) as [[]|e]; cbn; [|discriminate].
  destruct (sr_record env file_path) as [audio|e]; cbn; [|intros [= _ <-]; discriminate].
  destruct (recognize_sphinx env audio) as [text|e]; cbn; [discriminate|].
  destruct (recognize_google env audio) as [text|e']; cbn; [discriminate|].
  intros [= _ <-]. discriminate.
Qed.

(** C3: when the remote stage fails (it is not configured, or it returns
    ok=false) and the fallback returns ok=false with a message,
    [transcribe_audio] returns (false, that message), or
    (false, "Transcription failed.") for an empty message; and with no
    credential and no SpeechRecognition library it returns
    (false, "SpeechRecognition is not available."). *)
Theorem both_stages_fail (env : Env) (file_path : string) :
  (forall t m,
     (credential_unconfigured (settings env) \/
      exists t0 m0,
        transcribe._transcribe_with_openai env file_path = (t0, Ok (false, m0))) ->
     transcribe._transcribe_with_speech_recognition env file_path = (t, Ok (false, m)) ->
     outcome (transcribe.transcribe_audio env file_path)
     = Ok (false, if decide (m = "") then "Transcription failed." else m)) /\
  (credential_unconfigured (settings env) -> sr_imported env = false ->
   transcribe.transcribe_audio env file_path
   = ([Enter F_transcribe_audio; Enter F_transcribe_with_speech_recognition],
      Ok (false, "SpeechRecognition is not available."))).
Proof.
  split.
  - intros t m Hremote Hfallback.
    assert (Hm : pystr.or_else m "Transcription failed."
                 = if decide (m = "") then "Transcription failed." else m).
    { destruct m; reflexivity. }
    destruct (trimmed_key (settings env)) as [key|ex] eqn:Hkey.
    + rewrite (transcribe_audio_with_key env file_path key Hkey).
      destruct (pystr.truthy key) eqn:Htruthy.
      * destruct Hremote as [Hun | (t0 & m0 & Hremote)].
        -- apply unconfigured_key in Hun. rewrite Hun in Hkey.
           injection Hkey as <-. discriminate.
        -- rewrite Hremote. unfold transcribe.fallback_stage. rewrite Hfallback.
           cbn. now rewrite Hm.
      * unfold transcribe.fallback_stage. rewrite Hfallback. cbn. now rewrite Hm.
    + destruct Hremote as [Hun | (t0 & m0 & Hremote)].
      * apply unconfigured_key in Hun. congruence.
      * rewrite (transcribe_with_openai_without_key env file_path ex Hkey) in Hremote.
        discriminate.
  - intros Hkey%unconfigured_key Hsr.
    rewrite (transcribe_audio_with_key env file_path "" Hkey).
    unfold transcribe.fallback_stage, transcribe._transcribe_with_speech_recognition.
    rewrite Hsr. reflexivity.
Qed.

Lemma both_stages_fail_witness :
  outcome (transcribe.transcribe_audio samples.failing_env "/tmp/audio_x1.wav")
  = Ok (false, "Could not read audio file: unreadable") /\
  transcribe.transcribe_audio samples.bare_env "/tmp/audio_x1.wav"
  = ([Enter F_transcribe_audio; Enter F_transcribe_with_speech_recognition],
     Ok (false, "SpeechRecognition is not available.")).
Proof.
  split.
  - apply (proj1 (both_stages_fail samples.failing_env "/tmp/audio_x1.wav")
             [Enter F_transcribe_with_speech_recognition; ERecognizer;
              EAudioFileRecord "/tmp/audio_x1.wav"]
             "Could not read audio file: unreadable").
    + right. eexists. eexists. reflexivity.
    + reflexivity.
  - apply (proj2 (both_stages_fail samples.bare_env "/tmp/audio_x1.wav")).
    + exact I.
    + reflexivity.
Defined.

(** C4: in the fallback stage, once the audio file is read, the offline
    (Sphinx) recognizer is attempted first and its text is returned with
    ok=true; when it raises, its error leaves no mark and the online (Google)
    recognizer is attempted, whose text is returned with ok=true; when that
    one raises too, the result is (false, "SpeechRecognition failed: <detail>"). *)
Theorem fallback_recognizer_order (env : Env) (file_path : string) (audio : AudioData) :
  sr_imported env = true ->
  sr_Recognizer env = Ok tt ->
  sr_record env file_path = Ok audio ->
  (forall text,
     recognize_sphinx env audio = Ok text ->
     transcribe._transcribe_with_speech_recognition env file_path
     = ([Enter F_transcribe_with_speech_recognition; ERecognizer;
         EAudioFileRecord file_path; ERecognizeSphinx audio],
        Ok (true, text))) /\
  (forall e text,
     recognize_sphinx env audio = Raise e ->
     recognize_google env audio = Ok text ->
     transcribe._transcribe_with_speech_recognition env file_path
     = ([Enter F_transcribe_with_speech_recognition; ERecognizer;
         EAudioFileRecord file_path; ERecognizeSphinx audio; ERecognizeGoogle audio],
        Ok (true, text))) /\
  (forall e e',
     recognize_sphinx env audio = Raise e ->
     recognize_google env audio = Raise e' ->
     transcribe._transcribe_with_speech_recognition env file_path
     = ([Enter F_transcribe_with_speech_recognition; ERecognizer;
         EAudioFileRecord file_path; ERecognizeSphinx audio; ERecognizeGoogle audio],
        Ok (false, "SpeechRecognition failed: " +:+ exn_detail e'))).
Proof.
  intros Hsr Hrec Hread. unfold transcribe._transcribe_with_speech_recognition.
  rewrite Hsr, Hrec, Hread. cbn. repeat split.
  - intros text ->. reflexivity.
  - intros e text -> ->. reflexivity.
  - intros e e' -> ->. reflexivity.
Qed.

Lemma fallback_recognizer_order_witness :
  transcribe._transcribe_with_speech_recognition samples.sphinx_env "/tmp/audio_x1.wav"
  = ([Enter F_transcribe_with_speech_recognition; ERecognizer;
      EAudioFileRecord "/tmp/audio_x1.wav"; ERecognizeSphinx "frames"],
     Ok (true, "offline words")) /\
  transcribe._transcribe_with_speech_recognition samples.fallback_env "/tmp/audio_x1.wav"
  = ([Enter F_transcribe_with_speech_recognition; ERecognizer;
      EAudioFileRecord "/tmp/audio_x1.wav"; ERecognizeSphinx "frames";
      ERecognizeGoogle "frames"],
     Ok (true, "test phrase")) /\
  transcribe._transcribe_with_speech_recognition samples.deaf_env "/tmp/audio_x1.wav"
  = ([Enter F_transcribe_with_speech_recognition; ERecognizer;
      EAudioFileRecord "/tmp/audio_x1.wav"; ERecognizeSphinx "frames";
      ERecognizeGoogle "frames"],
     Ok (false, "SpeechRecognition failed: recognition connection failed")).
Proof.
  split; [|split].
  - apply (proj1 (fallback_recognizer_order samples.sphinx_env "/tmp/audio_x1.wav" "frames"
                    eq_refl eq_refl eq_refl)).
    reflexivity.
  - apply (proj1 (proj2 (fallback_recognizer_order samples.fallback_env
                           "/tmp/audio_x1.wav" "frames" eq_refl eq_refl eq_refl))
             (samples.OSError "missing PocketSphinx module")).
    + reflexivity.
    + reflexivity.
  - apply (proj2 (proj2 (fallback_recognizer_order samples.deaf_env
                           "/tmp/audio_x1.wav" "frames" eq_refl eq_refl eq_refl))
             (samples.OSError "missing PocketSphinx module")
             (samples.OSError "recognition connection failed")).
    + reflexivity.
    + reflexivity.
Defined.

(** ** The remote stage *)

(** Once the client is built, an exception of [open] or of the remote call
    becomes the failure result of the remote stage. *)
Lemma remote_call_exception_is_caught
    (env : Env) (file_path : string) (t0 : trace) (client : Client) (ex : exn) :
  transcribe._openai_client env = (t0, Ok (Some client)) ->
  open_rb env file_path = Raise ex \/
  (open_rb env file_path = Ok tt /\
   transcriptions_create env client
     (getattr (OPENAI_TRANSCRIPTION_MODEL (settings env)) "whisper-1") file_path
   = Raise ex) ->
  outcome (transcribe._transcribe_with_openai env file_path)
  = Ok (false, "OpenAI transcription failed: " +:+ exn_detail ex).
Proof.
  intros Hclient Hraise. unfold transcribe._transcribe_with_openai.
  rewrite Hclient. cbn -[getattr String.append].
  destruct Hraise as [Hopen | [Hopen Hcreate]].
  - rewrite Hopen. reflexivity.
  - rewrite Hopen, Hcreate. reflexivity.
Qed.

(** Once the client is built, the remote stage returns a result. *)
Lemma remote_stage_returns_after_client
    (env : Env) (file_path : string) (t0 : trace) (client : Client) :
  transcribe._openai_client env = (t0, Ok (Some client)) ->
  exists ok text,
    outcome (transcribe._transcribe_with_openai env file_path) = Ok (ok, text).
Proof.
  intros Hclient. unfold transcribe._transcribe_with_openai. rewrite Hclient.
  cbn -[getattr String.append transcribe.extract_text].
  destruct (open_rb env file_path) as [[]|e]; [|eexists; eexists; reflexivity].
  destruct (transcriptions_create env client _ file_path) as [resp|e];
    cbn -[String.append transcribe.extract_text]; [|eexists; eexists; reflexivity].
  destruct (transcribe.extract_text resp) as [t [text|e]];
    eexists; eexists; reflexivity.
Qed.

(** With a credential set and the SDK imported, an exception of
    [OpenAI(api_key=...)] leaves [transcribe_audio] as it was raised. *)
Lemma client_construction_error_propagates
    (env : Env) (file_path key : string) (ex : exn) :
  trimmed_key (settings env) = Ok key ->
  pystr.truthy key = true ->
  OpenAI_imported env = true ->
  OpenAI_init env key = Raise ex ->
  outcome (transcribe.transcribe_audio env file_path) = Raise ex.
Proof.
  intros Hkey Htruthy Hsdk Hinit.
  rewrite (transcribe_audio_with_key env file_path key Hkey), Htruthy.
  unfold transcribe._transcribe_with_openai.
  rewrite (openai_client_with_key env key Hkey), Htruthy, Hsdk, Hinit. reflexivity.
Qed.

(** C5: the exception of the construction of the client is raised before
    the [try] of [_transcribe_with_openai] and is not converted: with a
    credential set and an SDK that cannot build its client,
    [transcribe_audio] raises, and so does the transcribe operation. *)
Theorem client_construction_error_escapes :
  transcribe.transcribe_audio samples.broken_sdk_env "/tmp/audio_x1.wav"
  = ([Enter F_transcribe_audio; Enter F_transcribe_with_openai;
      Enter F_transcribe_openai_client; EOpenAI "sk-test"],
     Raise {| exn_class := "TypeError";
              exn_detail := "Client.__init__() got an unexpected keyword argument 'proxies'" |}) /\
  outcome (views.transcribe_view samples.broken_sdk_env (views.Valid samples.wav_upload))
  = Raise {| exn_class := "TypeError";
             exn_detail := "Client.__init__() got an unexpected keyword argument 'proxies'" |}.
Proof. split; reflexivity. Qed.

(** On a response of the expected shape, lines 45-53 compute what the
    ordered strategies of the specification give. *)
Lemma extract_text_follows_spec (resp : response) :
  extraction_spec.text_attribute_plain resp = true ->
  extraction_spec.data_attribute_plain resp = true ->
  transcribe.extract_text resp = lift (extraction_spec.extract resp).
Proof.
  unfold extraction_spec.text_attribute_plain, extraction_spec.data_attribute_plain,
    transcribe.extract_text, extraction_spec.extract, extraction_spec.text_attribute,
    extraction_spec.data_text_key, extraction_spec.to_dict_text_key,
    extraction_spec.nonempty_text.
  destruct resp as [text data to_dict shown];
    cbn [resp_text resp_data resp_to_dict resp_str].
  intros Htext Hdata.
  destruct (py_truthy (getattr text (PyStr ""))) eqn:Htruth.
  - (* a text attribute that is not empty *)
    destruct text as [attr|]; [|discriminate]. cbn [getattr] in *.
    rewrite Htruth.
    destruct attr as [|s|items sh|ty truth sh]; try discriminate.
    all: rewrite Htruth; destruct to_dict; unfold bind, ret, lift; cbn [negb app];
      rewrite Htruth; reflexivity.
  - (* no text attribute, or an empty one *)
    assert (Hattr : match text with
                    | Some v => if py_truthy v then Some (py_str v) else None
                    | None => None
                    end = None).
    { destruct text as [attr|]; [|reflexivity]. cbn [getattr] in Htruth.
      now rewrite Htruth. }
    rewrite Hattr. clear Hattr Htext Htruth text.
    destruct data as [[|s|items sh|ty truth sh]|]; cbn in Hdata |- *;
      destruct to_dict as [[d|e]|]; unfold bind, ret, lift; cbn [negb app py_truthy];
      repeat match goal with
        | H : negb ?b = true |- _ => destruct b; [discriminate H|]; clear H
        | |- context [py_truthy ?v] => destruct (py_truthy v) eqn:?; cbn [negb app]
        | |- context [pystr.truthy ?v] => destruct (pystr.truthy v) eqn:?; cbn [negb app]
        end;
      try reflexivity; try discriminate.
Qed.

(** With no [text] attribute, or an empty one, a [data] attribute that is
    not empty and not a dict is itself the text of lines 45-53. *)
Lemma extract_text_returns_plain_data (resp : response) (d : pyval) :
  py_truthy (getattr (resp_text resp) (PyStr "")) = false ->
  resp_data resp = Some d ->
  py_truthy d = true ->
  isinstance_dict d = false ->
  transcribe.extract_text resp = ([], Ok (pystr.strip (py_str d))).
Proof.
  unfold transcribe.extract_text.
  destruct resp as [text data to_dict shown];
    cbn [resp_text resp_data resp_to_dict resp_str].
  intros Htext -> Htruthy Hdict. rewrite Htext. cbn [getattr].
  assert (Hkeep : match d with
                  | PyDict items _ => dict_get items "text" (PyStr "")
                  | _ => d
                  end = d).
  { destruct d; try reflexivity. discriminate. }
  rewrite Hkeep, Htruthy. cbn [negb].
  destruct to_dict as [called|]; unfold bind, ret; cbn [app]; now rewrite Htruthy.
Qed.

(** C6, as amended: when the remote call returns a response whose [text]
    attribute is not a dict with entries and whose [data] attribute, if the
    [text] attribute is absent or empty, is absent, empty or a dict, the
    transcript is the first of: the [text] attribute, the [text] key of
    [data], the [text] key of the dict conversion, the stringified
    response; it is trimmed, and returned with ok=true.  An exception of
    the dict conversion is a failure of the remote stage.  When the [text]
    attribute is absent or empty and the [data] attribute is a value that is
    not empty and not a dict, that value itself is stringified, trimmed and
    returned with ok=true. *)
Theorem transcript_extraction_order
    (env : Env) (file_path : string) (t0 : trace) (client : Client) (resp : response) :
  transcribe._openai_client env = (t0, Ok (Some client)) ->
  open_rb env file_path = Ok tt ->
  transcriptions_create env client
    (getattr (OPENAI_TRANSCRIPTION_MODEL (settings env)) "whisper-1") file_path
  = Ok resp ->
  extraction_spec.text_attribute_plain resp = true ->
  (extraction_spec.data_attribute_plain resp = true ->
   outcome (transcribe._transcribe_with_openai env file_path)
   = match extraction_spec.extract resp with
     | Ok text => Ok (true, text)
     | Raise ex => Ok (false, "OpenAI transcription failed: " +:+ exn_detail ex)
     end) /\
  (forall d,
     py_truthy (getattr (resp_text resp) (PyStr "")) = false ->
     resp_data resp = Some d ->
     py_truthy d = true ->
     isinstance_dict d = false ->
     outcome (transcribe._transcribe_with_openai env file_path)
     = Ok (true, pystr.strip (py_str d))).
Proof.
  intros Hclient Hopen Hcreate Htext.
  assert (Hrun : forall extracted,
            transcribe.extract_text resp = ([], extracted) ->
            outcome (transcribe._transcribe_with_openai env file_path)
            = match extracted with
              | Ok text => Ok (true, text)
              | Raise ex => Ok (false, "OpenAI transcription failed: " +:+ exn_detail ex)
              end).
  { intros extracted Hextract.
    unfold transcribe._transcribe_with_openai. rewrite Hclient.
    cbn -[getattr String.append transcribe.extract_text].
    rewrite Hopen, Hcreate.
    cbn -[getattr String.append transcribe.extract_text].
    rewrite Hextract. now destruct extracted. }
  split.
  - intros Hdata. apply Hrun.
    exact (extract_text_follows_spec resp Htext Hdata).
  - intros d Hempty Hd Htruthy Hdict.
    exact (Hrun _ (extract_text_returns_plain_data resp d Hempty Hd Htruthy Hdict)).
Qed.

Lemma transcript_extraction_order_witness :
  outcome (transcribe._transcribe_with_openai samples.to_dict_env "/tmp/audio_x1.wav")
  = Ok (true, "good morning") /\
  outcome (transcribe._transcribe_with_openai samples.list_data_env "/tmp/audio_x1.wav")
  = Ok (true, "['hello']").
Proof.
  split.
  - apply (proj1 (transcript_extraction_order samples.to_dict_env "/tmp/audio_x1.wav"
                    [Enter F_transcribe_openai_client; EOpenAI "sk-test"]
                    {| client_id := "sk-test" |} samples.to_dict_response
                    eq_refl eq_refl eq_refl eq_refl)).
    reflexivity.
  - apply (proj2 (transcript_extraction_order samples.list_data_env "/tmp/audio_x1.wav"
                    [Enter F_transcribe_openai_client; EOpenAI "sk-test"]
                    {| client_id := "sk-test" |} samples.list_data_response
                    eq_refl eq_refl eq_refl eq_refl)
             (PyOther "list" true "['hello']")).
    + reflexivity.
    + reflexivity.
    + reflexivity.
    + reflexivity.
Defined.

(** C6, as stated, fails: a response without [text] whose [data] is a list
    has no [text] key anywhere, so the stated order ends at the stringified
    response; the code returns the stringified list. *)
Lemma transcript_extraction_order_counterexample :
  transcriptions_create samples.list_data_env {| client_id := "sk-test" |}
    "whisper-1" "/tmp/audio_x1.wav"
  = Ok samples.list_data_response /\
  extraction_spec.extract samples.list_data_response = Ok "Transcription()" /\
  outcome (transcribe._transcribe_with_openai samples.list_data_env "/tmp/audio_x1.wav")
  = Ok (true, "['hello']") /\
  outcome (transcribe._transcribe_with_openai samples.list_data_env "/tmp/audio_x1.wav")
  <> match extraction_spec.extract samples.list_data_response with
     | Ok text => Ok (true, text)
     | Raise ex => Ok (false, "OpenAI transcription failed: " +:+ exn_detail ex)
     end.
Proof. repeat split; try reflexivity. discriminate. Qed.

(** ** The operations *)

Lemma try_finally_safe_unlink {A : Type}
    (env : Env) (t : trace) (r : result A) (path : option string) :
  try_finally (t, r) (audio.safe_unlink env path)
  = (t ++ events_of (audio.safe_unlink env path), r).
Proof.
  pose proof (safe_unlink_returns env path) as Hret. unfold try_finally.
  destruct (audio.safe_unlink env path) as [t' [[]|e]]; cbn in Hret |- *;
    [reflexivity | discriminate].
Qed.

Lemma staging_not_chat (e : event) : staging_event e = true -> negb (chat_event e) = true.
Proof. destruct e as [[]| | | | | | | | | | | | | |]; simpl; congruence. Qed.

Lemma cleanup_not_chat (e : event) : cleanup_event e = true -> negb (chat_event e) = true.
Proof. destruct e as [[]| | | | | | | | | | | | | |]; simpl; congruence. Qed.

Lemma resolver_not_chat (e : event) : resolver_event e = true -> negb (chat_event e) = true.
Proof. destruct e as [[]| | | | | | | | | | | | | |]; simpl; congruence. Qed.

(** C7: in the voice-chat operation, when the upload is staged and the
    transcription succeeds with a transcript that is empty once trimmed,
    the response is {ok: false, error: "Transcript is empty."} and
    [send_chat] is not invoked: no event of the chat dependency occurs. *)
Theorem empty_transcript_skips_chat
    (env : Env) (file_obj : audio.UploadedFile)
    (t1 t2 : trace) (tmp_path ext result : string) :
  audio.save_uploaded_file_temporarily env file_obj = (t1, Ok (tmp_path, ext)) ->
  transcribe.transcribe_audio env tmp_path = (t2, Ok (true, result)) ->
  pystr.strip result = "" ->
  outcome (views.voice_chat_view env (views.Valid file_obj))
  = Ok {| views.data := [("ok", views.JBool false);
                         ("error", views.JStr "Transcript is empty.")];
          views.status := 500 |} /\
  never chat_event (views.voice_chat_view env (views.Valid file_obj)).
Proof.
  intros Hsave Htrans Hstrip.
  assert (Heq : views.voice_chat_view env (views.Valid file_obj)
                = (t1 ++ (t2 ++ []) ++ events_of (audio.safe_unlink env (Some tmp_path)),
                   Ok {| views.data := [("ok", views.JBool false);
                                        ("error", views.JStr "Transcript is empty.")];
                         views.status := 500 |})).
  { unfold views.voice_chat_view, views.with_staged_file. rewrite Hsave.
    cbn -[transcribe.transcribe_audio audio.safe_unlink pystr.strip try_finally].
    rewrite Htrans.
    cbn -[transcribe.transcribe_audio audio.safe_unlink pystr.strip try_finally].
    rewrite Hstrip.
    cbn -[transcribe.transcribe_audio audio.safe_unlink pystr.strip try_finally].
    rewrite try_finally_safe_unlink. now rewrite <- app_assoc. }
  rewrite Heq. split; [reflexivity|].
  unfold never, emits. cbn [events_of fst]. rewrite !forallb_app. cbn [forallb].
  pose proof (save_uploaded_file_temporarily_events env file_obj) as H1.
  apply (emits_weaken _ _ _ staging_not_chat) in H1.
  apply (emits_events _ _ _ _ Hsave) in H1.
  pose proof (transcribe_audio_events env tmp_path) as H2.
  apply (emits_weaken _ _ _ resolver_not_chat) in H2.
  apply (emits_events _ _ _ _ Htrans) in H2.
  pose proof (safe_unlink_events env (Some tmp_path)) as H3.
  apply (emits_weaken _ _ _ cleanup_not_chat) in H3. unfold emits in H3.
  now rewrite H1, H2, H3.
Qed.

Lemma empty_transcript_skips_chat_witness :
  outcome (views.voice_chat_view samples.silence_env (views.Valid samples.wav_upload))
  = Ok {| views.data := [("ok", views.JBool false);
                         ("error", views.JStr "Transcript is empty.")];
          views.status := 500 |} /\
  never chat_event (views.voice_chat_view samples.silence_env (views.Valid samples.wav_upload)).
Proof.
  apply (empty_transcript_skips_chat samples.silence_env samples.wav_upload
           [Enter F_save_uploaded_file_temporarily; EMkstemp "audio_" ".wav";
            EWrite "/tmp/audio_x1.wav" "RIFF"; EWrite "/tmp/audio_x1.wav" "data";
            EFdClose "/tmp/audio_x1.wav"]
           [Enter F_transcribe_audio; Enter F_transcribe_with_speech_recognition;
            ERecognizer; EAudioFileRecord "/tmp/audio_x1.wav"; ERecognizeSphinx "frames"]
           "/tmp/audio_x1.wav" ".wav" "   ");
    reflexivity.
Defined.

Lemma credential_blank_iff (s : Settings) :
  credential_blank s = true <-> credential_unconfigured s.
Proof.
  unfold credential_blank, credential_unconfigured.
  destruct (OPENAI_API_KEY s) as [[|key|items shown|tyname truth shown]|];
    try tauto; try (split; [discriminate | tauto]).
  symmetry. apply strip_empty_iff.
Qed.

(** The two ways of reading the credential, [getattr] with a default and
    [hasattr], give the same. *)
Lemma chat_key_is_trimmed_key (s : Settings) :
  match OPENAI_API_KEY s with
  | Some key => py_strip key
  | None => Ok ""
  end = trimmed_key s.
Proof. unfold trimmed_key. now destruct (OPENAI_API_KEY s). Qed.

Lemma chat_openai_client_with_key (env : Env) (key : string) :
  trimmed_key (settings env) = Ok key ->
  chat._openai_client env
  = (enter F_chat_openai_client ;;
     if negb (pystr.truthy key) || negb (OpenAI_imported env) then ret None
     else
       client <- extern (EOpenAI key) (OpenAI_init env key) ;;
       ret (Some client)).
Proof.
  unfold chat._openai_client. rewrite chat_key_is_trimmed_key. intros ->.
  now rewrite bind_lift_ok.
Qed.

Lemma send_chat_unconfigured (env : Env) (message context : string) :
  credential_unconfigured (settings env) ->
  chat.send_chat env message context
  = ([Enter F_send_chat; Enter F_chat_openai_client],
     Ok "OpenAI is not configured. Please set OPENAI_API_KEY to enable chat replies.").
Proof.
  intros Hkey%unconfigured_key. unfold chat.send_chat.
  rewrite (chat_openai_client_with_key env "" Hkey). reflexivity.
Qed.

(** C10: when the credential is unset, empty or only whitespace,
    [send_chat] returns, for every message and context, the fixed reply
    "OpenAI is not configured. Please set OPENAI_API_KEY to enable chat
    replies." without raising and without any request over the network;
    so the chat operation answers {ok: true, reply: that text}, and the
    voice-chat operation, once it has a transcript that is not empty,
    answers {ok: true, transcript, reply: that text}. *)
Theorem unconfigured_chat_gives_canned_reply (env : Env) :
  credential_blank (settings env) = true ->
  (forall message context,
     chat.send_chat env message context
     = ([Enter F_send_chat; Enter F_chat_openai_client],
        Ok "OpenAI is not configured. Please set OPENAI_API_KEY to enable chat replies.") /\
     never network_event (chat.send_chat env message context)) /\
  (forall request,
     outcome (views.chat_view env (views.Valid request))
     = Ok {| views.data :=
               [("ok", views.JBool true);
                ("reply", views.JStr "OpenAI is not configured. Please set OPENAI_API_KEY to enable chat replies.")];
             views.status := 200 |}) /\
  (forall file_obj t1 t2 tmp_path ext result,
     audio.save_uploaded_file_temporarily env file_obj = (t1, Ok (tmp_path, ext)) ->
     transcribe.transcribe_audio env tmp_path = (t2, Ok (true, result)) ->
     pystr.strip result <> "" ->
     outcome (views.voice_chat_view env (views.Valid file_obj))
     = Ok {| views.data :=
               [("ok", views.JBool true);
                ("transcript", views.JStr (pystr.strip result));
                ("reply", views.JStr "OpenAI is not configured. Please set OPENAI_API_KEY to enable chat replies.")];
             views.status := 200 |}).
Proof.
  intros Hkey%credential_blank_iff. split; [|split].
  - intros message context. rewrite (send_chat_unconfigured env message context Hkey).
    split; reflexivity.
  - intros request. unfold views.chat_view.
    rewrite (send_chat_unconfigured env _ _ Hkey). reflexivity.
  - intros file_obj t1 t2 tmp_path ext result Hsave Htrans Hstrip.
    apply truthy_true_iff in Hstrip.
    unfold views.voice_chat_view, views.with_staged_file. rewrite Hsave.
    cbn -[transcribe.transcribe_audio audio.safe_unlink pystr.strip chat.send_chat try_finally].
    rewrite Htrans.
    cbn -[transcribe.transcribe_audio audio.safe_unlink pystr.strip chat.send_chat try_finally].
    rewrite Hstrip, (send_chat_unconfigured env _ _ Hkey).
    cbn -[transcribe.transcribe_audio audio.safe_unlink pystr.strip chat.send_chat try_finally].
    rewrite try_finally_safe_unlink. reflexivity.
Qed.

Lemma unconfigured_chat_gives_canned_reply_witness :
  outcome (views.chat_view samples.fallback_env
             (views.Valid {| views.message := "hello"; views.context := Some "be brief" |}))
  = Ok {| views.data :=
            [("ok", views.JBool true);
             ("reply", views.JStr "OpenAI is not configured. Please set OPENAI_API_KEY to enable chat replies.")];
          views.status := 200 |} /\
  outcome (views.voice_chat_view samples.fallback_env (views.Valid samples.wav_upload))
  = Ok {| views.data :=
            [("ok", views.JBool true);
             ("transcript", views.JStr "test phrase");
             ("reply", views.JStr "OpenAI is not configured. Please set OPENAI_API_KEY to enable chat replies.")];
          views.status := 200 |}.
Proof.
  assert (Hkey : credential_blank (settings samples.fallback_env) = true) by reflexivity.
  destruct (unconfigured_chat_gives_canned_reply samples.fallback_env Hkey)
    as (_ & Hchat & Hvoice).
  split.
  - apply Hchat.
  - apply (Hvoice samples.wav_upload
             [Enter F_save_uploaded_file_temporarily; EMkstemp "audio_" ".wav";
              EWrite "/tmp/audio_x1.wav" "RIFF"; EWrite "/tmp/audio_x1.wav" "data";
              EFdClose "/tmp/audio_x1.wav"]
             [Enter F_transcribe_audio; Enter F_transcribe_with_speech_recognition;
              ERecognizer; EAudioFileRecord "/tmp/audio_x1.wav";
              ERecognizeSphinx "frames"; ERecognizeGoogle "frames"]
             "/tmp/audio_x1.wav" ".wav" "test phrase").
    + reflexivity.
    + reflexivity.
    + discriminate.
Defined.

(** * Further properties *)

(** ** Upload staging *)


Lemma write_chunks_stops_at_error
    (env : Env) (path : string) (pre post : list string) (c : string) (ex : exn) :
  (forall c', In c' pre -> fd_write env path c' = Ok tt) ->
  fd_write env path c = Raise ex ->
  audio.write_chunks env path (pre ++ c :: post) = (writes path (pre ++ [c]), Raise ex).
Proof.
  intros Hok Hfail. induction pre as [|c0 pre IH]; cbn [app audio.write_chunks writes map].
  - rewrite Hfail. reflexivity.
  - rewrite (Hok c0 (or_introl eq_refl)). unfold bind, extern.
    rewrite IH; [reflexivity|]. intros c' Hin. apply Hok. now right.
Qed.

Lemma write_chunks_only_writes (env : Env) (path : string) (cs : list string) :
  emits (fun e => match e with EWrite _ _ => true | _ => false end)
    (audio.write_chunks env path cs).
Proof.
  induction cs as [|c rest IH]; cbn [audio.write_chunks]; [apply emits_ret|].
  apply emits_bind; [apply emits_extern; reflexivity | intros _; exact IH].
Qed.

Lemma write_is_not_mkstemp (e : event) :
  match e with EWrite _ _ => true | _ => false end = true ->
  negb match e with EMkstemp _ _ => true | _ => false end = true.
Proof. now destruct e. Qed.

Lemma guess_extension_range (mime : option string) :
  In (audio._guess_extension_from_mime mime) [".wav"; ".mp3"; ".bin"].
Proof.
  unfold audio._guess_extension_from_mime, audio.mapping.
  set (key := match mime with Some m => pystr.or_else m "" | None => "" end).
  destruct (decide (key = "audio/wav")) as [->|H1]; [cbn; tauto|].
  destruct (decide (key = "audio/x-wav")) as [->|H2]; [cbn; tauto|].
  destruct (decide (key = "audio/mpeg")) as [->|H3]; [cbn; tauto|].
  destruct (decide (key = "audio/mp3")) as [->|H4]; [cbn; tauto|].
  rewrite !lookup_insert_ne, lookup_singleton_ne by congruence. cbn; tauto.
Qed.



(** X2: when the write of a chunk raises, [save_uploaded_file_temporarily]
    writes no later chunk, still closes the file, and raises that
    exception (the exception of the close, should the close raise as
    well): it returns no path. *)
Theorem staging_stops_at_failed_write
    (env : Env) (file_obj : audio.UploadedFile) (path : string)
    (pre post : list string) (c : string) (ex : exn) :
  let ext := audio._guess_extension_from_mime (audio.content_type file_obj) in
  mkstemp env "audio_" ext = Ok path ->
  audio.chunks file_obj = pre ++ c :: post ->
  (forall c', In c' pre -> fd_write env path c' = Ok tt) ->
  fd_write env path c = Raise ex ->
  audio.save_uploaded_file_temporarily env file_obj
  = ([Enter F_save_uploaded_file_temporarily; EMkstemp "audio_" ext]
       ++ writes path (pre ++ [c]) ++ [EFdClose path],
     match fd_close env path with
     | Ok _ => Raise ex
     | Raise ex' => Raise ex'
     end).
Proof.
  intros ext Hmk Hchunks Hok Hfail. unfold audio.save_uploaded_file_temporarily. fold ext.
  rewrite Hmk, Hchunks. unfold bind at 1 2. cbn [enter extern].
  rewrite (write_chunks_stops_at_error env path pre post c ex Hok Hfail).
  now destruct (fd_close env path) as [[]|ex'].
Qed.

Lemma staging_stops_at_failed_write_witness :
  audio.save_uploaded_file_temporarily scenarios.full_disk_env
    {| audio.content_type := Some "audio/mpeg";
       audio.chunks := ["ID3"; "data"; "more"] |}
  = ([Enter F_save_uploaded_file_temporarily; EMkstemp "audio_" ".mp3";
      EWrite "/tmp/audio_x1.mp3" "ID3"; EWrite "/tmp/audio_x1.mp3" "data";
      EFdClose "/tmp/audio_x1.mp3"],
     Raise (samples.OSError "No space left on device")).
Proof.
  apply (staging_stops_at_failed_write scenarios.full_disk_env
           {| audio.content_type := Some "audio/mpeg";
              audio.chunks := ["ID3"; "data"; "more"] |}
           "/tmp/audio_x1.mp3" ["ID3"] ["more"] "data"
           (samples.OSError "No space left on device")).
  - reflexivity.
  - reflexivity.
  - intros c' [<-|[]]. reflexivity.
  - reflexivity.
Defined.

(** X3: whatever the upload declares and whatever the file system answers,
    the only file [save_uploaded_file_temporarily] asks for has the prefix
    "audio_" and one of the suffixes ".wav", ".mp3", ".bin": the declared
    content type never becomes part of a file name. *)
Theorem staging_file_name_is_fixed (env : Env) (file_obj : audio.UploadedFile) :
  forall prefix suffix,
    In (EMkstemp prefix suffix)
       (events_of (audio.save_uploaded_file_temporarily env file_obj)) ->
    prefix = "audio_" /\ In suffix [".wav"; ".mp3"; ".bin"].
Proof.
  intros prefix suffix. unfold audio.save_uploaded_file_temporarily.
  pose proof (guess_extension_range (audio.content_type file_obj)) as Hext.
  set (ext := audio._guess_extension_from_mime (audio.content_type file_obj)) in *.
  rewrite events_of_bind. cbn [enter events_of outcome fst snd app].
  rewrite events_of_bind. cbn [extern events_of outcome fst snd app].
  intros [Hin | [Hin | Hin]]; [discriminate | injection Hin as <- <-; now split |].
  exfalso. destruct (mkstemp env "audio_" ext) as [path|e]; [|destruct Hin].
  assert (Hrest : emits (fun e => negb match e with EMkstemp _ _ => true | _ => false end)
                    (try_finally (audio.write_chunks env path (audio.chunks file_obj))
                       (extern (EFdClose path) (fd_close env path));;
                     ret (path, ext))).
  { apply emits_bind; [|intros _; apply emits_ret].
    apply emits_try_finally; [|reflexivity].
    apply (emits_weaken _ _ _ (fun e => write_is_not_mkstemp e)), write_chunks_only_writes. }
  unfold emits in Hrest. rewrite forallb_forall in Hrest.
  specialize (Hrest _ Hin). discriminate.
Qed.

Lemma staging_file_name_is_fixed_witness :
  "audio_" = "audio_" /\ In ".wav" [".wav"; ".mp3"; ".bin"].
Proof.
  apply (staging_file_name_is_fixed samples.remote_env samples.wav_upload "audio_" ".wav").
  cbn. right. left. reflexivity.
Defined.

(** ** Staged files in the operations *)

Lemma emits_In {A : Type} (P : event -> bool) (m : M A) (e : event) :
  emits P m -> In e (events_of m) -> P e = true.
Proof. unfold emits. rewrite forallb_forall. intros H Hin. exact (H e Hin). Qed.

Lemma emits_same_events {A B : Type} (P : event -> bool) (m : M A) (m' : M B) :
  events_of m' = events_of m -> emits P m -> emits P m'.
Proof. unfold emits. now intros ->. Qed.

Lemma with_staged_file_staged {A : Type}
    (env : Env) (file_obj : audio.UploadedFile) (body : string -> M A)
    (t1 : trace) (p ext : string) :
  audio.save_uploaded_file_temporarily env file_obj = (t1, Ok (p, ext)) ->
  views.with_staged_file env file_obj body
  = (t1 ++ events_of (body p) ++ events_of (audio.safe_unlink env (Some p)),
     outcome (body p)).
Proof.
  intros Hsave. unfold views.with_staged_file. rewrite Hsave. unfold bind.
  destruct (body p) as [t r]. rewrite try_finally_safe_unlink.
  cbn [events_of outcome fst snd]. now rewrite <- app_assoc.
Qed.

Lemma with_staged_file_not_staged {A : Type}
    (env : Env) (file_obj : audio.UploadedFile) (body : string -> M A)
    (t1 : trace) (ex : exn) :
  audio.save_uploaded_file_temporarily env file_obj = (t1, Raise ex) ->
  views.with_staged_file env file_obj body = (t1 ++ [Enter F_safe_unlink], Raise ex).
Proof. intros Hsave. unfold views.with_staged_file. rewrite Hsave. reflexivity. Qed.

Lemma emits_with_staged_file {A : Type} (P : event -> bool)
    (env : Env) (file_obj : audio.UploadedFile) (body : string -> M A) :
  emits P (audio.save_uploaded_file_temporarily env file_obj) ->
  (forall path, emits P (audio.safe_unlink env path)) ->
  (forall p, emits P (body p)) ->
  emits P (views.with_staged_file env file_obj body).
Proof.
  intros Hsave Hunlink Hbody. unfold views.with_staged_file.
  destruct (audio.save_uploaded_file_temporarily env file_obj) as [t [[p ext]|ex]].
  - apply emits_try_finally; [|apply Hunlink].
    apply emits_bind; [exact Hsave | intros _; apply Hbody].
  - apply emits_try_finally; [exact Hsave | apply Hunlink].
Qed.

Lemma chat_openai_client_events (env : Env) :
  emits chat_stage_event (chat._openai_client env).
Proof. unfold chat._openai_client. repeat emits_step. Qed.

Lemma send_chat_events (env : Env) (message context : string) :
  emits chat_stage_event (chat.send_chat env message context).
Proof.
  unfold chat.send_chat.
  repeat first [apply chat_openai_client_events | emits_step].
Qed.

Lemma staging_is_working (e : event) : staging_event e = true -> working_event e = true.
Proof. unfold working_event. now intros ->. Qed.

Lemma resolver_is_working (e : event) : resolver_event e = true -> working_event e = true.
Proof. unfold working_event. intros ->. now rewrite orb_true_r. Qed.

Lemma chat_stage_is_working (e : event) : chat_stage_event e = true -> working_event e = true.
Proof. unfold working_event. intros ->. now rewrite orb_true_r. Qed.

Lemma working_not_cleanup (e : event) :
  working_event e = true -> negb (cleanup_event e) = true.
Proof. now destruct e as [[]| | | | | | | | | | | | | |]. Qed.

Lemma transcribe_body_events (env : Env) (tmp_path : string) :
  emits resolver_event
    ('(ok, result) <- transcribe.transcribe_audio env tmp_path ;;
     if (ok : bool) then
       if getattr (DEBUG_TRANSCRIPTS (settings env)) false
       then ret {| views.data := [("ok", views.JBool true); ("transcript", views.JStr result);
                                  ("debug", views.JBool true)];
                   views.status := views.HTTP_200_OK |}
       else ret {| views.data := [("ok", views.JBool true); ("transcript", views.JStr result)];
                   views.status := views.HTTP_200_OK |}
     else ret {| views.data := [("ok", views.JBool false); ("error", views.JStr result)];
                 views.status := views.HTTP_500_INTERNAL_SERVER_ERROR |}).
Proof. repeat first [apply transcribe_audio_events | emits_step]. Qed.

Lemma voice_chat_body_events (env : Env) (tmp_path : string) :
  emits working_event
    ('(ok, result) <- transcribe.transcribe_audio env tmp_path ;;
     if negb ok then
       ret {| views.data := [("ok", views.JBool false); ("error", views.JStr result)];
              views.status := views.HTTP_500_INTERNAL_SERVER_ERROR |}
     else
       let transcript := pystr.strip result in
       if negb (pystr.truthy transcript) then
         ret {| views.data := [("ok", views.JBool false);
                               ("error", views.JStr "Transcript is empty.")];
                views.status := views.HTTP_500_INTERNAL_SERVER_ERROR |}
       else
         reply <- chat.send_chat env transcript "" ;;
         ret {| views.data := [("ok", views.JBool true); ("transcript", views.JStr transcript);
                               ("reply", views.JStr reply)];
                views.status := views.HTTP_200_OK |}).
Proof.
  repeat first
    [ apply (emits_weaken _ _ _ resolver_is_working), transcribe_audio_events
    | apply (emits_weaken _ _ _ chat_stage_is_working), send_chat_events
    | emits_step ].
Qed.

(** X4: when staging raises (the temporary file cannot be created, or a
    chunk cannot be written), the transcribe and the voice-chat operation
    raise that exception; [safe_unlink] is entered with no path, so nothing
    is looked up or removed, and neither transcription nor chat is tried. *)
Theorem failed_staging_is_not_cleaned_up
    (env : Env) (file_obj : audio.UploadedFile) (t1 : trace) (ex : exn) :
  audio.save_uploaded_file_temporarily env file_obj = (t1, Raise ex) ->
  views.transcribe_view env (views.Valid file_obj)
  = (t1 ++ [Enter F_safe_unlink], Raise ex) /\
  views.voice_chat_view env (views.Valid file_obj)
  = (t1 ++ [Enter F_safe_unlink], Raise ex).
Proof.
  intros Hsave. unfold views.transcribe_view, views.voice_chat_view.
  now rewrite !(with_staged_file_not_staged env file_obj _ t1 ex Hsave).
Qed.

Lemma failed_staging_is_not_cleaned_up_witness :
  views.voice_chat_view scenarios.full_disk_env (views.Valid samples.wav_upload)
  = ([Enter F_save_uploaded_file_temporarily; EMkstemp "audio_" ".wav";
      EWrite "/tmp/audio_x1.wav" "RIFF"; EWrite "/tmp/audio_x1.wav" "data";
      EFdClose "/tmp/audio_x1.wav"; Enter F_safe_unlink],
     Raise (samples.OSError "No space left on device")).
Proof.
  apply (proj2 (failed_staging_is_not_cleaned_up scenarios.full_disk_env samples.wav_upload
                  [Enter F_save_uploaded_file_temporarily; EMkstemp "audio_" ".wav";
                   EWrite "/tmp/audio_x1.wav" "RIFF"; EWrite "/tmp/audio_x1.wav" "data";
                   EFdClose "/tmp/audio_x1.wav"]
                  (samples.OSError "No space left on device") eq_refl)).
Defined.

(** X5: once the upload is staged at a path, the transcribe and the
    voice-chat operation end, whatever the transcription and the chat do
    (return, fail or raise), with [safe_unlink] of that path; nothing before
    it looks up or removes a file. *)
Theorem staged_file_cleanup_runs_last
    (env : Env) (file_obj : audio.UploadedFile) (t1 : trace) (p ext : string) :
  audio.save_uploaded_file_temporarily env file_obj = (t1, Ok (p, ext)) ->
  (exists mid,
     events_of (views.transcribe_view env (views.Valid file_obj))
     = t1 ++ mid ++ events_of (audio.safe_unlink env (Some p)) /\
     forallb (fun e => negb (cleanup_event e)) (t1 ++ mid) = true) /\
  (exists mid,
     events_of (views.voice_chat_view env (views.Valid file_obj))
     = t1 ++ mid ++ events_of (audio.safe_unlink env (Some p)) /\
     forallb (fun e => negb (cleanup_event e)) (t1 ++ mid) = true).
Proof.
  intros Hsave.
  assert (Ht1 : forallb (fun e => negb (cleanup_event e)) t1 = true).
  { pose proof (save_uploaded_file_temporarily_events env file_obj) as H.
    apply (emits_weaken _ _ _ staging_is_working) in H.
    apply (emits_weaken _ _ _ working_not_cleanup) in H.
    exact (emits_events _ _ _ _ Hsave H). }
  unfold views.transcribe_view, views.voice_chat_view.
  rewrite !(with_staged_file_staged env file_obj _ t1 p ext Hsave).
  cbn [events_of fst]. split; eexists; (split; [reflexivity|]);
    rewrite forallb_app, Ht1; cbn [andb].
  - pose proof (transcribe_body_events env p) as H.
    apply (emits_weaken _ _ _ resolver_is_working) in H.
    apply (emits_weaken _ _ _ working_not_cleanup) in H. exact H.
  - pose proof (voice_chat_body_events env p) as H.
    apply (emits_weaken _ _ _ working_not_cleanup) in H. exact H.
Qed.

Lemma staged_file_cleanup_runs_last_witness :
  exists mid,
    events_of (views.voice_chat_view scenarios.chat_down_env (views.Valid samples.wav_upload))
    = [Enter F_save_uploaded_file_temporarily; EMkstemp "audio_" ".wav";
       EWrite "/tmp/audio_x1.wav" "RIFF"; EWrite "/tmp/audio_x1.wav" "data";
       EFdClose "/tmp/audio_x1.wav"]
      ++ mid
      ++ events_of (audio.safe_unlink scenarios.chat_down_env (Some "/tmp/audio_x1.wav")) /\
    forallb (fun e => negb (cleanup_event e))
      ([Enter F_save_uploaded_file_temporarily; EMkstemp "audio_" ".wav";
        EWrite "/tmp/audio_x1.wav" "RIFF"; EWrite "/tmp/audio_x1.wav" "data";
        EFdClose "/tmp/audio_x1.wav"] ++ mid) = true.
Proof.
  apply (proj2 (staged_file_cleanup_runs_last scenarios.chat_down_env samples.wav_upload
                  _ "/tmp/audio_x1.wav" ".wav" eq_refl)).
Defined.

Lemma staged_path_comes_from_mkstemp
    (env : Env) (file_obj : audio.UploadedFile) (t1 : trace) (p ext : string) :
  audio.save_uploaded_file_temporarily env file_obj = (t1, Ok (p, ext)) ->
  ext = audio._guess_extension_from_mime (audio.content_type file_obj) /\
  mkstemp env "audio_" ext = Ok p.
Proof.
  unfold audio.save_uploaded_file_temporarily.
  set (guessed := audio._guess_extension_from_mime (audio.content_type file_obj)).
  destruct (mkstemp env "audio_" guessed) as [path|e] eqn:Hmk; cbn; [|discriminate].
  destruct (audio.write_chunks env path (audio.chunks file_obj)) as [t [[]|e]];
    destruct (fd_close env path) as [[]|e']; cbn; try discriminate.
  intros [= _ <- <-]. now split.
Qed.

Lemma safe_unlink_touches_its_path (env : Env) (p : string) :
  emits (cleanup_of p) (audio.safe_unlink env (Some p)).
Proof.
  unfold audio.safe_unlink.
  repeat first
    [ apply emits_extern; cbn; apply String.eqb_refl
    | emits_step ].
Qed.

Lemma removal_is_of_staged_file {A : Type}
    (env : Env) (file_obj : audio.UploadedFile) (body : string -> M A) (q : string) :
  (forall p, emits working_event (body p)) ->
  In (ERemove q) (events_of (views.with_staged_file env file_obj body)) ->
  mkstemp env "audio_" (audio._guess_extension_from_mime (audio.content_type file_obj))
  = Ok q.
Proof.
  intros Hbody Hin.
  pose proof (save_uploaded_file_temporarily_events env file_obj) as Hstaging.
  destruct (audio.save_uploaded_file_temporarily env file_obj)
    as [t1 [[p ext]|ex]] eqn:Hsave.
  - rewrite (with_staged_file_staged env file_obj body t1 p ext Hsave) in Hin.
    cbn [events_of fst] in Hin.
    apply in_app_or in Hin as [Hin | Hin]; [|apply in_app_or in Hin as [Hin | Hin]].
    + apply (emits_In _ _ _ Hstaging) in Hin. discriminate.
    + apply (emits_In _ _ _ (Hbody p)) in Hin. discriminate.
    + apply (emits_In _ _ _ (safe_unlink_touches_its_path env p)) in Hin.
      cbn in Hin. apply String.eqb_eq in Hin as ->.
      destruct (staged_path_comes_from_mkstemp env file_obj t1 p ext Hsave) as [-> Hmk].
      exact Hmk.
  - rewrite (with_staged_file_not_staged env file_obj body t1 ex Hsave) in Hin.
    cbn [events_of fst] in Hin. apply in_app_or in Hin as [Hin | [Hin | []]].
    + apply (emits_In _ _ _ Hstaging) in Hin. discriminate.
    + discriminate.
Qed.

(** X6: the only file the transcribe and the voice-chat operation ever
    remove is the temporary file they created themselves: every path given
    to [os.remove] is the path [mkstemp] returned for this upload. *)
Theorem only_the_staged_file_is_removed
    (env : Env) (request : views.validation audio.UploadedFile) (q : string) :
  In (ERemove q) (events_of (views.transcribe_view env request)) \/
  In (ERemove q) (events_of (views.voice_chat_view env request)) ->
  exists file_obj,
    request = views.Valid file_obj /\
    mkstemp env "audio_" (audio._guess_extension_from_mime (audio.content_type file_obj))
    = Ok q.
Proof.
  destruct request as [errors | file_obj]; [intros [[] | []]|].
  intros Hin. exists file_obj. split; [reflexivity|].
  destruct Hin as [Hin | Hin].
  - apply (removal_is_of_staged_file env file_obj _ q) in Hin; [exact Hin|].
    intros p. apply (emits_weaken _ _ _ resolver_is_working), transcribe_body_events.
  - apply (removal_is_of_staged_file env file_obj _ q) in Hin; [exact Hin|].
    intros p. apply voice_chat_body_events.
Qed.

Lemma only_the_staged_file_is_removed_witness :
  exists file_obj,
    views.Valid samples.wav_upload = views.Valid file_obj /\
    mkstemp samples.remote_env "audio_"
      (audio._guess_extension_from_mime (audio.content_type file_obj))
    = Ok "/tmp/audio_x1.wav".
Proof.
  apply (only_the_staged_file_is_removed samples.remote_env (views.Valid samples.wav_upload)
           "/tmp/audio_x1.wav").
  right. cbn. do 18 right. left. reflexivity.
Defined.

(** X7: for every request and every environment, the transcribe operation
    never invokes the chat dependency, and the chat operation does nothing
    but the chat dependency and the construction of its client: it stages,
    reads and removes no file and runs no recognizer. *)
Theorem operations_keep_to_their_dependencies (env : Env) :
  (forall request, never chat_event (views.transcribe_view env request)) /\
  (forall request, emits chat_stage_event (views.chat_view env request)) /\
  (forall request,
     never (fun e => staging_event e || cleanup_event e || fallback_event e)
       (views.chat_view env request)).
Proof.
  assert (Hchat : forall request, emits chat_stage_event (views.chat_view env request)).
  { intros [errors | request]; unfold views.chat_view;
      repeat first [apply send_chat_events | emits_step]. }
  split; [|split; [exact Hchat|]].
  - intros [errors | file_obj]; unfold views.transcribe_view; [apply emits_ret|].
    apply emits_with_staged_file.
    + apply (emits_weaken _ _ _ staging_not_chat),
        save_uploaded_file_temporarily_events.
    + intros path. apply (emits_weaken _ _ _ cleanup_not_chat), safe_unlink_events.
    + intros p. apply (emits_weaken _ _ _ resolver_not_chat), transcribe_body_events.
  - intros request. apply (emits_weaken chat_stage_event); [|apply Hchat].
    now intros [[]| | | | | | | | | | | | | |].
Qed.

(** ** The chat dependency in the operations *)

(** X8: from the verdict of the serializer on (lines 99-109), the chat
    operation never raises: whether [is_valid()] gave errors or validated
    data, and whatever the environment answers, it returns a response, with
    status 400 for errors and 200 or 500 for validated data; an exception of
    [send_chat] (the credential, the construction of the client or the
    request) becomes {ok: false, error: <its text>} with status 500.  What
    comes before the verdict (the method and media type checks of the
    decorators, the parsing of [request.data]) is not part of this. *)
Theorem chat_view_after_validation_never_raises
    (env : Env) (request : views.validation views.ChatRequest) :
  (exists response,
     outcome (views.chat_view env request) = Ok response /\
     match request with
     | views.Invalid _ => views.status response = 400
     | views.Valid _ => views.status response = 200 \/ views.status response = 500
     end) /\
  (forall validated ex,
     request = views.Valid validated ->
     outcome (chat.send_chat env (views.message validated)
                (getattr (views.context validated) "")) = Raise ex ->
     outcome (views.chat_view env request)
     = Ok {| views.data := [("ok", views.JBool false);
                            ("error", views.JStr (exn_detail ex))];
             views.status := 500 |}).
Proof.
  split.
  - destruct request as [errors | validated]; unfold views.chat_view.
    + eexists. split; reflexivity.
    + destruct (chat.send_chat env _ _) as [t [reply | ex]];
        eexists; (split; [reflexivity|]); cbn; tauto.
  - intros validated ex -> Hraise. unfold views.chat_view.
    destruct (chat.send_chat env _ _) as [t [reply | ex']]; cbn in Hraise |- *;
      [discriminate|]. now injection Hraise as ->.
Qed.

Lemma chat_view_after_validation_never_raises_witness :
  outcome (views.chat_view scenarios.chat_down_env (views.Valid scenarios.chat_request))
  = Ok {| views.data := [("ok", views.JBool false);
                         ("error", views.JStr "Rate limit reached")];
          views.status := 500 |}.
Proof.
  apply (proj2 (chat_view_after_validation_never_raises scenarios.chat_down_env
                  (views.Valid scenarios.chat_request))
           scenarios.chat_request (samples.OSError "Rate limit reached")).
  - reflexivity.
  - reflexivity.
Defined.

(** X9: in the voice-chat operation an exception of [send_chat] is not
    converted: with the upload staged and a transcript that is not empty,
    the operation raises that exception, after [safe_unlink] of the staged
    path. *)
Theorem voice_chat_lets_chat_errors_through
    (env : Env) (file_obj : audio.UploadedFile)
    (t1 t2 t3 : trace) (p ext result : string) (ex : exn) :
  audio.save_uploaded_file_temporarily env file_obj = (t1, Ok (p, ext)) ->
  transcribe.transcribe_audio env p = (t2, Ok (true, result)) ->
  pystr.strip result <> "" ->
  chat.send_chat env (pystr.strip result) "" = (t3, Raise ex) ->
  views.voice_chat_view env (views.Valid file_obj)
  = (t1 ++ (t2 ++ t3) ++ events_of (audio.safe_unlink env (Some p)), Raise ex).
Proof.
  intros Hsave Htrans Hstrip%truthy_true_iff Hchat. unfold views.voice_chat_view.
  rewrite (with_staged_file_staged env file_obj _ t1 p ext Hsave).
  rewrite Htrans. cbn -[pystr.strip chat.send_chat audio.safe_unlink].
  rewrite Hstrip, Hchat. reflexivity.
Qed.

Lemma voice_chat_lets_chat_errors_through_witness :
  outcome (views.voice_chat_view scenarios.chat_down_env (views.Valid samples.wav_upload))
  = Raise (samples.OSError "Rate limit reached").
Proof.
  refine (f_equal snd
            (voice_chat_lets_chat_errors_through scenarios.chat_down_env samples.wav_upload
               _ _ _ "/tmp/audio_x1.wav" ".wav" "hello world"
               (samples.OSError "Rate limit reached") eq_refl eq_refl _ eq_refl)).
  discriminate.
Defined.


Lemma chat_client_no_request (env : Env) :
  emits (fun e => negb (is_completion_request e)) (chat._openai_client env).
Proof. unfold chat._openai_client. repeat emits_step. Qed.



Lemma send_chat_request_messages
    (env : Env) (message context model : string) (messages : list (string * string)) :
  In (EChatCompletionsCreate model messages)
     (events_of (chat.send_chat env message context)) ->
  model = getattr (OPENAI_MODEL (settings env)) "gpt-4o-mini" /\
  messages = (if decide (context = "") then [] else [("system", context)])
             ++ [("user", message)].
Proof.
  assert (Hctx : (if pystr.truthy context then [("system", context)] else [])
                 = if decide (context = "") then [] else [("system", context)]).
  { now destruct context. }
  revert model messages.
  set (model := getattr (OPENAI_MODEL (settings env)) "gpt-4o-mini").
  set (messages := (if decide (context = "") then [] else [("system", context)])
                   ++ [("user", message)]).
  intros model' messages' Hin. unfold chat.send_chat in Hin.
  rewrite Hctx in Hin. fold model messages in Hin. rewrite !events_of_bind in Hin.
  cbn [enter events_of outcome fst snd app] in Hin.
  destruct Hin as [Hin | Hin]; [discriminate|].
  apply in_app_or in Hin as [Hin | Hin].
  - apply (emits_In _ _ _ (chat_client_no_request env)) in Hin. discriminate.
  - destruct (outcome (chat._openai_client env)) as [[client|]|ex];
      cbn in Hin; try tauto.
    destruct (chat_completions_create env client model messages) as [resp|ex];
      cbn in Hin.
    + destruct (choices resp) as [[|first rest]|]; cbn in Hin;
        destruct Hin as [Hin | []]; now injection Hin as <- <-.
    + destruct Hin as [Hin | []]. now injection Hin as <- <-.
Qed.





(** ** Trimmed text *)

Section strip_facts.
Import pystr.

Lemma lstrip_starts_clean (s : string) : starts_clean (lstrip s) = true.
Proof.
  induction s as [|c rest IH]; cbn; [reflexivity|].
  destruct (isspace c) eqn:Hc; [exact IH | cbn; now rewrite Hc].
Qed.

Lemma lstrip_clean (s : string) : starts_clean s = true -> lstrip s = s.
Proof. destruct s as [|c rest]; cbn; [reflexivity|]. now intros ->%negb_true_iff. Qed.

Lemma rstrip_cons_clean (c : ascii) (rest : string) :
  isspace c = false -> rstrip (String c rest) = String c (rstrip rest).
Proof. intros Hc. cbn. rewrite Hc. now destruct (rstrip rest). Qed.

Lemma rstrip_starts_clean (s : string) : starts_clean s = true -> starts_clean (rstrip s) = true.
Proof.
  destruct s as [|c rest]; cbn [starts_clean]; [reflexivity|].
  intros Hc%negb_true_iff. rewrite (rstrip_cons_clean c rest Hc). cbn. now rewrite Hc.
Qed.

Lemma rstrip_cons (c : ascii) (rest : string) :
  rstrip (String c rest)
  = match rstrip rest with
    | EmptyString => if isspace c then EmptyString else String c EmptyString
    | kept => String c kept
    end.
Proof. reflexivity. Qed.

Lemma rstrip_idempotent (s : string) : rstrip (rstrip s) = rstrip s.
Proof.
  induction s as [|c rest IH]; [reflexivity|].
  rewrite (rstrip_cons c rest). destruct (rstrip rest) as [|c' kept] eqn:Hrest.
  - destruct (isspace c) eqn:Hc; [reflexivity|]. cbn. now rewrite Hc.
  - rewrite (rstrip_cons c (String c' kept)), IH. reflexivity.
Qed.

Lemma strip_idempotent (s : string) : strip (strip s) = strip s.
Proof.
  unfold strip.
  rewrite (lstrip_clean (rstrip (lstrip s)))
    by apply rstrip_starts_clean, lstrip_starts_clean.
  apply rstrip_idempotent.
Qed.

End strip_facts.

(** ** More of the transcription resolver *)

Lemma outcome_bind {A B : Type} (m : M A) (k : A -> M B) :
  outcome (bind m k)
  = match outcome m with
    | Ok a => outcome (k a)
    | Raise e => Raise e
    end.
Proof.
  unfold bind, outcome. destruct m as [t [a|e]]; cbn; [|reflexivity].
  now destruct (k a).
Qed.

Lemma empty_key_unconfigured (s : Settings) (key : string) :
  trimmed_key s = Ok key -> pystr.truthy key = false -> credential_unconfigured s.
Proof.
  unfold trimmed_key, credential_unconfigured.
  destruct (OPENAI_API_KEY s) as [[|raw|items shown|tyname truth shown]|];
    cbn; try discriminate; try tauto.
  intros [= <-]. apply truthy_false_iff.
Qed.

(** X12: when a credential is configured and the remote stage returns
    ok=false, [transcribe_audio] goes on with the fallback and returns what
    lines 105-111 give: a fallback that succeeds yields (true, its text),
    and the message of the remote failure is dropped. *)
Theorem remote_failure_falls_back
    (env : Env) (file_path : string) (t0 : trace) (m0 : string) :
  ~ credential_unconfigured (settings env) ->
  transcribe._transcribe_with_openai env file_path = (t0, Ok (false, m0)) ->
  transcribe.transcribe_audio env file_path
  = (Enter F_transcribe_audio :: t0 ++ events_of (transcribe.fallback_stage env file_path),
     outcome (transcribe.fallback_stage env file_path)) /\
  (forall t text,
     transcribe._transcribe_with_speech_recognition env file_path = (t, Ok (true, text)) ->
     transcribe.transcribe_audio env file_path
     = (Enter F_transcribe_audio :: t0 ++ t, Ok (true, text))).
Proof.
  intros Hconfigured Hremote.
  assert (Heq : transcribe.transcribe_audio env file_path
                = (Enter F_transcribe_audio
                     :: t0 ++ events_of (transcribe.fallback_stage env file_path),
                   outcome (transcribe.fallback_stage env file_path))).
  { destruct (trimmed_key (settings env)) as [key|ex] eqn:Hkey.
    - rewrite (transcribe_audio_with_key env file_path key Hkey).
      destruct (pystr.truthy key) eqn:Htruthy.
      + rewrite Hremote.
        destruct (transcribe.fallback_stage env file_path) as [t r]. reflexivity.
      + contradict Hconfigured. exact (empty_key_unconfigured _ key Hkey Htruthy).
    - rewrite (transcribe_with_openai_without_key env file_path ex Hkey) in Hremote.
      discriminate. }
  split; [exact Heq|]. intros t text Hfallback. rewrite Heq.
  unfold transcribe.fallback_stage. rewrite Hfallback. cbn. now rewrite app_nil_r.
Qed.

Lemma remote_failure_falls_back_witness :
  transcribe.transcribe_audio scenarios.remote_down_env "/tmp/audio_x1.wav"
  = ([Enter F_transcribe_audio; Enter F_transcribe_with_openai;
      Enter F_transcribe_openai_client; EOpenAI "sk-test"; EOpen "/tmp/audio_x1.wav";
      ETranscriptionsCreate "whisper-1" "/tmp/audio_x1.wav"; EClose "/tmp/audio_x1.wav";
      Enter F_transcribe_with_speech_recognition; ERecognizer;
      EAudioFileRecord "/tmp/audio_x1.wav"; ERecognizeSphinx "frames"],
     Ok (true, "offline words")).
Proof.
  apply (proj2 (remote_failure_falls_back scenarios.remote_down_env "/tmp/audio_x1.wav"
                  [Enter F_transcribe_with_openai; Enter F_transcribe_openai_client;
                   EOpenAI "sk-test"; EOpen "/tmp/audio_x1.wav";
                   ETranscriptionsCreate "whisper-1" "/tmp/audio_x1.wav";
                   EClose "/tmp/audio_x1.wav"]
                  "OpenAI transcription failed: Connection error."
                  ltac:(discriminate) eq_refl)
           [Enter F_transcribe_with_speech_recognition; ERecognizer;
            EAudioFileRecord "/tmp/audio_x1.wav"; ERecognizeSphinx "frames"]
           "offline words").
  reflexivity.
Defined.

Lemma remote_stage_raises_from_client (env : Env) (file_path : string) (ex : exn) :
  outcome (transcribe._transcribe_with_openai env file_path) = Raise ex ->
  trimmed_key (settings env) = Raise ex \/
  exists key,
    trimmed_key (settings env) = Ok key /\ key <> "" /\
    OpenAI_imported env = true /\ OpenAI_init env key = Raise ex.
Proof.
  unfold transcribe._transcribe_with_openai.
  destruct (trimmed_key (settings env)) as [key|ex0] eqn:Hkey.
  - rewrite (openai_client_with_key env key Hkey). intros Hraise. right. exists key.
    destruct (pystr.truthy key) eqn:Htruthy; cbn [negb orb] in Hraise; [|discriminate].
    apply truthy_true_iff in Htruthy.
    destruct (OpenAI_imported env); cbn [negb] in Hraise; [|discriminate].
    destruct (OpenAI_init env key) as [client|e] eqn:Hinit.
    + exfalso. revert Hraise.
      cbn -[getattr String.append transcribe.extract_text].
      destruct (open_rb env file_path) as [[]|e]; [|discriminate].
      destruct (transcriptions_create env client _ file_path) as [resp|e];
        cbn -[String.append transcribe.extract_text]; [|discriminate].
      destruct (transcribe.extract_text resp) as [t [text|e]]; discriminate.
    + cbn in Hraise. injection Hraise as ->. now repeat split.
  - rewrite (openai_client_without_key env ex0 Hkey). cbn. intros [= ->]. now left.
Qed.

Lemma fallback_raises_from_recognizer (env : Env) (file_path : string) (ex : exn) :
  outcome (transcribe.fallback_stage env file_path) = Raise ex ->
  sr_imported env = true /\ sr_Recognizer env = Raise ex.
Proof.
  unfold transcribe.fallback_stage, transcribe._transcribe_with_speech_recognition.
  destruct (sr_imported env); cbn [negb]; [|discriminate].
  destruct (sr_Recognizer env) as [[]|e]; cbn; [|intros [= ->]; now split].
  destruct (sr_record env file_path) as [audio|e]; cbn; [|discriminate].
  destruct (recognize_sphinx env audio) as [text|e]; cbn; [discriminate|].
  destruct (recognize_google env audio) as [text|e']; discriminate.
Qed.

(** X13: an exception leaves [transcribe_audio] in three cases only, each
    a call outside any [try]: [.strip()] on a set credential that is not a
    string (line 100), [OpenAI(api_key=...)] with a credential configured
    and the SDK imported, and [sr.Recognizer()] with the library imported.
    An error of [open], of the remote call, of reading the audio or of a
    recognizer never leaves it. *)
Theorem resolver_raises_only_outside_try
    (env : Env) (file_path : string) (ex : exn) :
  outcome (transcribe.transcribe_audio env file_path) = Raise ex ->
  (exists v, OPENAI_API_KEY (settings env) = Some v /\ py_strip v = Raise ex) \/
  (exists key,
     trimmed_key (settings env) = Ok key /\ key <> "" /\
     OpenAI_imported env = true /\ OpenAI_init env key = Raise ex) \/
  (sr_imported env = true /\ sr_Recognizer env = Raise ex).
Proof.
  assert (Hstrip : trimmed_key (settings env) = Raise ex ->
                   exists v, OPENAI_API_KEY (settings env) = Some v /\ py_strip v = Raise ex).
  { unfold trimmed_key. destruct (OPENAI_API_KEY (settings env)) as [v|]; cbn.
    - intros H. now exists v.
    - discriminate. }
  destruct (trimmed_key (settings env)) as [key|ex0] eqn:Hkey.
  - rewrite (transcribe_audio_with_key env file_path key Hkey).
    rewrite outcome_bind. cbn [enter outcome snd].
    destruct (pystr.truthy key) eqn:Htruthy.
    + rewrite outcome_bind.
      destruct (outcome (transcribe._transcribe_with_openai env file_path))
        as [[[|] text]|ex1] eqn:Hremote.
      * discriminate.
      * intros H. right. right.
        now apply (fallback_raises_from_recognizer env file_path).
      * intros [= ->].
        apply remote_stage_raises_from_client in Hremote as [Hraise | Hclient].
        -- rewrite Hkey in Hraise. discriminate.
        -- right. left. rewrite Hkey in Hclient. exact Hclient.
    + intros H. right. right.
      now apply (fallback_raises_from_recognizer env file_path).
  - rewrite (transcribe_audio_without_key env file_path ex0 Hkey). cbn.
    intros [= ->]. left. now apply Hstrip.
Qed.

Lemma resolver_raises_only_outside_try_witness :
  (exists v,
     OPENAI_API_KEY (settings scenarios.none_key_env) = Some v /\
     py_strip v
     = Raise {| exn_class := "AttributeError";
                exn_detail := "'NoneType' object has no attribute 'strip'" |}) \/
  (exists key,
     trimmed_key (settings scenarios.none_key_env) = Ok key /\ key <> "" /\
     OpenAI_imported scenarios.none_key_env = true /\
     OpenAI_init scenarios.none_key_env key
     = Raise {| exn_class := "AttributeError";
                exn_detail := "'NoneType' object has no attribute 'strip'" |}) \/
  (sr_imported scenarios.none_key_env = true /\
   sr_Recognizer scenarios.none_key_env
   = Raise {| exn_class := "AttributeError";
              exn_detail := "'NoneType' object has no attribute 'strip'" |}).
Proof.
  apply (resolver_raises_only_outside_try scenarios.none_key_env "/tmp/audio_x1.wav").
  reflexivity.
Defined.

(** X14: when the audio file cannot be opened or read, the fallback stage
    returns (false, "Could not read audio file: <detail>") and attempts no
    recognizer; with no credential configured this is the result of
    [transcribe_audio]. *)
Theorem unreadable_audio_fails_before_recognition
    (env : Env) (file_path : string) (ex : exn) :
  sr_imported env = true ->
  sr_Recognizer env = Ok tt ->
  sr_record env file_path = Raise ex ->
  transcribe._transcribe_with_speech_recognition env file_path
  = ([Enter F_transcribe_with_speech_recognition; ERecognizer; EAudioFileRecord file_path],
     Ok (false, "Could not read audio file: " +:+ exn_detail ex)) /\
  (credential_unconfigured (settings env) ->
   outcome (transcribe.transcribe_audio env file_path)
   = Ok (false, "Could not read audio file: " +:+ exn_detail ex)).
Proof.
  intros Hsr Hrec Hread.
  assert (Heq : transcribe._transcribe_with_speech_recognition env file_path
                = ([Enter F_transcribe_with_speech_recognition; ERecognizer;
                    EAudioFileRecord file_path],
                   Ok (false, "Could not read audio file: " +:+ exn_detail ex))).
  { unfold transcribe._transcribe_with_speech_recognition.
    rewrite Hsr, Hrec, Hread. reflexivity. }
  split; [exact Heq|]. intros Hkey%unconfigured_key.
  rewrite (transcribe_audio_with_key env file_path "" Hkey).
  unfold transcribe.fallback_stage. rewrite Heq. reflexivity.
Qed.

Lemma unreadable_audio_fails_before_recognition_witness :
  transcribe._transcribe_with_speech_recognition samples.failing_env "/tmp/audio_x1.wav"
  = ([Enter F_transcribe_with_speech_recognition; ERecognizer;
      EAudioFileRecord "/tmp/audio_x1.wav"],
     Ok (false, "Could not read audio file: unreadable")).
Proof.
  apply (proj1 (unreadable_audio_fails_before_recognition samples.failing_env
                  "/tmp/audio_x1.wav" (samples.OSError "unreadable")
                  eq_refl eq_refl eq_refl)).
Defined.

(** X15: once its client is built, the remote stage opens the file, sends
    exactly one transcription request with the model
    [OPENAI_TRANSCRIPTION_MODEL] (or "whisper-1" when that is not set), and
    closes the file, whether the request returns or raises; when the file
    cannot be opened no request is sent. *)
Theorem remote_stage_sends_one_request_and_closes
    (env : Env) (file_path : string) (t0 : trace) (client : Client) :
  transcribe._openai_client env = (t0, Ok (Some client)) ->
  (open_rb env file_path = Ok tt ->
   events_of (transcribe._transcribe_with_openai env file_path)
   = Enter F_transcribe_with_openai
       :: t0 ++ [EOpen file_path;
                 ETranscriptionsCreate
                   (getattr (OPENAI_TRANSCRIPTION_MODEL (settings env)) "whisper-1")
                   file_path;
                 EClose file_path]) /\
  (forall ex, open_rb env file_path = Raise ex ->
   events_of (transcribe._transcribe_with_openai env file_path)
   = Enter F_transcribe_with_openai :: t0 ++ [EOpen file_path]).
Proof.
  intros Hclient. unfold transcribe._transcribe_with_openai. rewrite Hclient.
  cbn -[getattr String.append transcribe.extract_text]. split.
  - intros ->. cbn -[getattr String.append transcribe.extract_text].
    destruct (transcriptions_create env client _ file_path) as [resp|e];
      cbn -[getattr String.append transcribe.extract_text]; [|reflexivity].
    pose proof (extract_text_events (fun _ => false) resp) as Hsilent.
    unfold emits in Hsilent.
    destruct (transcribe.extract_text resp) as [[|e t] [text|e']]; cbn in Hsilent |- *;
      try discriminate; reflexivity.
  - intros ex ->. reflexivity.
Qed.

Lemma remote_stage_sends_one_request_and_closes_witness :
  events_of (transcribe._transcribe_with_openai scenarios.remote_down_env "/tmp/audio_x1.wav")
  = [Enter F_transcribe_with_openai; Enter F_transcribe_openai_client; EOpenAI "sk-test";
     EOpen "/tmp/audio_x1.wav"; ETranscriptionsCreate "whisper-1" "/tmp/audio_x1.wav";
     EClose "/tmp/audio_x1.wav"].
Proof.
  apply (proj1 (remote_stage_sends_one_request_and_closes scenarios.remote_down_env
                  "/tmp/audio_x1.wav"
                  [Enter F_transcribe_openai_client; EOpenAI "sk-test"]
                  {| client_id := "sk-test" |} eq_refl)).
  reflexivity.
Defined.

Lemma extract_text_is_trimmed (resp : response) (t : trace) (text : string) :
  transcribe.extract_text resp = (t, Ok text) -> pystr.strip text = text.
Proof.
  unfold transcribe.extract_text.
  match goal with
  | |- bind ?m _ = _ -> _ => destruct m as [t' [v|e]]
  end; cbn; [|discriminate].
  intros [= _ <-]. apply strip_idempotent.
Qed.

(** X16: a transcript the remote stage returns with ok=true has no
    whitespace at its start or its end: trimming it again changes nothing. *)
Theorem remote_transcript_is_trimmed
    (env : Env) (file_path : string) (t : trace) (text : string) :
  transcribe._transcribe_with_openai env file_path = (t, Ok (true, text)) ->
  pystr.strip text = text.
Proof.
  unfold transcribe._transcribe_with_openai.
  destruct (transcribe._openai_client env) as [t0 [[client|]|ex]];
    cbn -[getattr String.append transcribe.extract_text]; try discriminate.
  destruct (open_rb env file_path) as [[]|e];
    cbn -[getattr String.append transcribe.extract_text]; [|discriminate].
  destruct (transcriptions_create env client _ file_path) as [resp|e];
    cbn -[getattr String.append transcribe.extract_text]; [|discriminate].
  destruct (transcribe.extract_text resp) as [t' [text'|e]] eqn:Hextract;
    cbn; [|discriminate].
  intros [= _ <-]. exact (extract_text_is_trimmed resp t' text' Hextract).
Qed.

Lemma remote_transcript_is_trimmed_witness : pystr.strip "hello world" = "hello world".
Proof.
  apply (remote_transcript_is_trimmed samples.remote_env "/tmp/audio_x1.wav"
           [Enter F_transcribe_with_openai; Enter F_transcribe_openai_client;
            EOpenAI "sk-test"; EOpen "/tmp/audio_x1.wav";
            ETranscriptionsCreate "whisper-1" "/tmp/audio_x1.wav";
            EClose "/tmp/audio_x1.wav"]).
  reflexivity.
Defined.

(** X17: in the voice-chat operation, with the upload staged and a
    transcript that is not empty once trimmed, the message given to the chat
    dependency is the trimmed transcript, without a system context: every
    completion request of the operation carries the single user message
    with the trimmed transcript; and when [send_chat] returns a reply the
    response is {ok: true, transcript: <trimmed>, reply} with status 200. *)
Theorem voice_chat_sends_trimmed_transcript
    (env : Env) (file_obj : audio.UploadedFile)
    (t1 t2 : trace) (p ext result : string) :
  audio.save_uploaded_file_temporarily env file_obj = (t1, Ok (p, ext)) ->
  transcribe.transcribe_audio env p = (t2, Ok (true, result)) ->
  pystr.strip result <> "" ->
  (forall model messages,
     In (EChatCompletionsCreate model messages)
        (events_of (views.voice_chat_view env (views.Valid file_obj))) ->
     messages = [("user", pystr.strip result)]) /\
  (forall t3 reply,
     chat.send_chat env (pystr.strip result) "" = (t3, Ok reply) ->
     outcome (views.voice_chat_view env (views.Valid file_obj))
     = Ok {| views.data := [("ok", views.JBool true);
                            ("transcript", views.JStr (pystr.strip result));
                            ("reply", views.JStr reply)];
             views.status := 200 |}).
Proof.
  intros Hsave Htrans Hstrip%truthy_true_iff. unfold views.voice_chat_view.
  rewrite (with_staged_file_staged env file_obj _ t1 p ext Hsave).
  rewrite events_of_bind, outcome_bind, Htrans.
  cbn -[pystr.strip chat.send_chat audio.safe_unlink bind].
  rewrite Hstrip. cbn [negb]. split.
  - intros model messages Hin.
    apply in_app_or in Hin as [Hin | Hin]; [|apply in_app_or in Hin as [Hin | Hin]].
    + pose proof (save_uploaded_file_temporarily_events env file_obj) as H.
      apply (emits_events _ _ _ _ Hsave) in H. rewrite forallb_forall in H.
      specialize (H _ Hin). discriminate.
    + apply in_app_or in Hin as [Hin | Hin].
      * pose proof (transcribe_audio_events env p) as H.
        apply (emits_events _ _ _ _ Htrans) in H. rewrite forallb_forall in H.
        specialize (H _ Hin). discriminate.
      * rewrite events_of_bind in Hin. apply in_app_or in Hin as [Hin | Hin].
        -- now apply send_chat_request_messages in Hin as [_ ->].
        -- destruct (outcome _); cbn in Hin; tauto.
    + pose proof (safe_unlink_events env (Some p)) as H.
      apply (emits_In _ _ _ H) in Hin. discriminate.
  - intros t3 reply Hchat. rewrite outcome_bind, Hchat. reflexivity.
Qed.

Lemma voice_chat_sends_trimmed_transcript_witness :
  outcome (views.voice_chat_view samples.remote_env (views.Valid samples.wav_upload))
  = Ok {| views.data := [("ok", views.JBool true);
                         ("transcript", views.JStr "hello world");
                         ("reply", views.JStr "hi")];
          views.status := 200 |}.
Proof.
  apply (proj2 (voice_chat_sends_trimmed_transcript samples.remote_env samples.wav_upload
                  _ _ "/tmp/audio_x1.wav" ".wav" "hello world"
                  eq_refl eq_refl ltac:(discriminate))
           [Enter F_send_chat; Enter F_chat_openai_client; EOpenAI "sk-test";
            EChatCompletionsCreate "gpt-4o-mini" [("user", "hello world")]]
           "hi").
  reflexivity.
Defined.

(** ** Validation of uploads *)

Lemma contains_In (l : list string) (x : string) :
  serializers.contains l x = true <-> In x l.
Proof.
  unfold serializers.contains. rewrite existsb_exists. split.
  - intros (y & Hin & Heq). apply String.eqb_eq in Heq. now subst.
  - intros Hin. exists x. split; [exact Hin | apply String.eqb_refl].
Qed.

(** X18: [validate_audio] accepts an upload, returning it unchanged,
    exactly when its declared content type is missing, empty or in
    [ALLOWED_AUDIO_MIME_TYPES] and its size is unknown, zero or at most
    [MAX_AUDIO_FILE_MB] * 1048576 bytes.  A declared type that is not
    allowed is reported first, whatever the size, naming the type and the
    allowed ones; otherwise a size over the limit is reported with the
    limit in MB. *)
Theorem validate_audio_accepts_exactly
    (cfg : serializers.AudioSettings) (file_obj : serializers.SizedFile) :
  let allowed := serializers.ALLOWED_AUDIO_MIME_TYPES cfg in
  let limit := (serializers.MAX_AUDIO_FILE_MB cfg * 1048576)%Z in
  let type_ok := match audio.content_type (serializers.upload file_obj) with
                 | None => True
                 | Some ct => ct = "" \/ In ct allowed
                 end in
  let size_ok := match serializers.size file_obj with
                 | None => True
                 | Some n => (n = 0 \/ n <= limit)%Z
                 end in
  (serializers.validate_audio cfg file_obj = inr file_obj <-> type_ok /\ size_ok) /\
  (forall accepted,
     serializers.validate_audio cfg file_obj = inr accepted -> accepted = file_obj) /\
  (forall ct,
     audio.content_type (serializers.upload file_obj) = Some ct ->
     ct <> "" -> ~ In ct allowed ->
     serializers.validate_audio cfg file_obj
     = inl ("Unsupported audio type '" +:+ ct +:+ "'. Allowed: "
            +:+ String.concat ", " allowed)) /\
  (type_ok -> ~ size_ok ->
   serializers.validate_audio cfg file_obj
   = inl ("File too large. Max " +:+ serializers.str_int (serializers.MAX_AUDIO_FILE_MB cfg)
          +:+ " MB allowed.")).
Proof.
  intros allowed limit type_ok size_ok.
  assert (Hlimit : (serializers.MAX_AUDIO_FILE_MB cfg * 1024 * 1024)%Z = limit)
    by (unfold limit; lia).
  unfold serializers.validate_audio. rewrite Hlimit. fold allowed.
  assert (Htype :
            match audio.content_type (serializers.upload file_obj) with
            | Some ct =>
                if pystr.truthy ct && negb (serializers.contains allowed ct)
                then Some ct else None
            | None => None
            end = None <-> type_ok).
  { unfold type_ok. destruct (audio.content_type _) as [ct|]; [|tauto].
    pose proof (contains_In allowed ct) as Hin.
    destruct ct as [|c rest]; cbn [pystr.truthy andb]; [tauto|].
    destruct (serializers.contains allowed (String c rest)); cbn [negb].
    - split; [intros _; right; now apply Hin | reflexivity].
    - split; [discriminate|]. intros [Hempty | Hallowed]; [discriminate|].
      apply Hin in Hallowed. discriminate. }
  assert (Hsize :
            match serializers.size file_obj with
            | Some n => negb (n =? 0)%Z && (n >? limit)%Z
            | None => false
            end = false <-> size_ok).
  { unfold size_ok. destruct (serializers.size file_obj) as [n|]; [|tauto].
    destruct (Z.eqb_spec n 0), (Z.gtb_spec n limit); cbn; split; intros Hn;
      try reflexivity; try discriminate; try lia; try tauto. }
  split; [|split; [|split]].
  - destruct (match audio.content_type _ with Some _ => _ | None => _ end) as [ct|].
    { split; [discriminate|]. intros [Ht%Htype _]. discriminate. }
    destruct (match serializers.size file_obj with Some _ => _ | None => _ end).
    { split; [discriminate|]. intros [_ Hs%Hsize]. discriminate. }
    split; [|reflexivity]. intros _. split; [now apply Htype | now apply Hsize].
  - intros accepted.
    destruct (match audio.content_type _ with Some _ => _ | None => _ end) as [ct|];
      [discriminate|].
    destruct (match serializers.size file_obj with Some _ => _ | None => _ end);
      [discriminate|]. now intros [= <-].
  - intros ct Hct Hne Hnot. rewrite Hct.
    apply truthy_true_iff in Hne. rewrite Hne.
    destruct (serializers.contains allowed ct) eqn:Hin.
    + apply contains_In in Hin. contradiction.
    + reflexivity.
  - intros Ht%Htype Hs. rewrite Ht.
    destruct (match serializers.size file_obj with Some _ => _ | None => _ end);
      [reflexivity|]. exfalso. apply Hs. now apply Hsize.
Qed.

Lemma validate_audio_accepts_exactly_witness :
  serializers.validate_audio scenarios.audio_settings
    (scenarios.sized (Some "video/mp4") (Some 30000000%Z))
  = inl "Unsupported audio type 'video/mp4'. Allowed: audio/wav, audio/x-wav, audio/mpeg, audio/mp3"
  /\
  serializers.validate_audio scenarios.audio_settings
    (scenarios.sized (Some "audio/wav") (Some 26214401%Z))
  = inl "File too large. Max 25 MB allowed."
  /\
  serializers.validate_audio scenarios.audio_settings
    (scenarios.sized (Some "audio/wav") (Some 26214400%Z))
  = inr (scenarios.sized (Some "audio/wav") (Some 26214400%Z)).
Proof.
  split; [|split].
  - apply (proj1 (proj2 (proj2 (validate_audio_accepts_exactly scenarios.audio_settings
                                  (scenarios.sized (Some "video/mp4") (Some 30000000%Z)))))
             "video/mp4").
    + reflexivity.
    + discriminate.
    + cbn. intros [H | [H | [H | [H | []]]]]; discriminate.
  - apply (proj2 (proj2 (proj2 (validate_audio_accepts_exactly scenarios.audio_settings
                                  (scenarios.sized (Some "audio/wav") (Some 26214401%Z)))))).
    + cbn. right. left. reflexivity.
    + cbn. lia.
  - apply (proj1 (validate_audio_accepts_exactly scenarios.audio_settings
                    (scenarios.sized (Some "audio/wav") (Some 26214400%Z)))).
    split; cbn; [right; left; reflexivity | lia].
Defined.

(** X19: when every allowed content type is one of the four of the
    extension table, an upload that [validate_audio] accepts and that
    declares a content type is staged with the extension ".wav" or ".mp3";
    ".bin" is left to uploads that declare none. *)
Theorem accepted_upload_gets_audio_extension
    (cfg : serializers.AudioSettings) (file_obj : serializers.SizedFile) (ct : string) :
  (forall allowed, In allowed (serializers.ALLOWED_AUDIO_MIME_TYPES cfg) ->
     In allowed ["audio/wav"; "audio/x-wav"; "audio/mpeg"; "audio/mp3"]) ->
  serializers.validate_audio cfg file_obj = inr file_obj ->
  audio.content_type (serializers.upload file_obj) = Some ct ->
  ct <> "" ->
  In (audio._guess_extension_from_mime (audio.content_type (serializers.upload file_obj)))
     [".wav"; ".mp3"].
Proof.
  intros Htable Haccept Hct Hne. rewrite Hct.
  assert (Hin : In ct (serializers.ALLOWED_AUDIO_MIME_TYPES cfg)).
  { unfold serializers.validate_audio in Haccept. rewrite Hct in Haccept.
    apply truthy_true_iff in Hne. rewrite Hne in Haccept. cbn [andb] in Haccept.
    destruct (serializers.contains _ ct) eqn:Hc; [now apply contains_In|].
    discriminate. }
  apply Htable in Hin. cbn in Hin.
  destruct Hin as [<- | [<- | [<- | [<- | []]]]]; cbn; tauto.
Qed.

Lemma accepted_upload_gets_audio_extension_witness :
  In (audio._guess_extension_from_mime (Some "audio/mpeg")) [".wav"; ".mp3"].
Proof.
  apply (accepted_upload_gets_audio_extension scenarios.audio_settings
           (scenarios.sized (Some "audio/mpeg") (Some 1024%Z)) "audio/mpeg").
  - intros allowed H. exact H.
  - reflexivity.
  - reflexivity.
  - discriminate.
Defined.
